(** * Self-Healing Coding Assistant: the editor command handler

    A shallow embedding of [src/extension.ts].  The handler is host glue:
    it reads the active editor, validates, collects diagnostics, issues one
    HTTP POST, and applies (or previews) the returned text.  The embedding
    keeps that shape:

    - the editor host (window messages, prompts, progress, console, the
      document and its edits, the HTTP client) is an explicit [World] that
      the handler threads through a state-and-exception monad;
    - everything the host decides (configuration, diagnostics, the HTTP
      outcome, the user's answers to the prompts, whether the editor
      applies an edit, typing that happens while the request is in flight)
      is the read-only [Host] record.

    A JavaScript string is the list of its UTF-16 code units, so lengths,
    positions and white space are those of the language. *)

From Stdlib Require Import String Ascii List Bool Arith NArith ZArith Lia.
From Stdlib Require Import Decimal DecimalString.
Import ListNotations.

Local Open Scope list_scope.
Local Open Scope nat_scope.

(* ================================================================== *)
(** ** JavaScript strings and numbers *)
(* ================================================================== *)

(** A string value: its UTF-16 code units, each a number below 65536. *)
Definition jstring : Type := list N.

(** The string whose characters are the ASCII characters of [s]. *)
Definition lit (s : String.string) : jstring :=
  map N_of_ascii (list_ascii_of_string s).

(** A number value, as far as the handler uses one: it hands the timeout
    to the HTTP client and prints it in a template literal.  The number is
    held by the text that printing gives it (Number::toString: [30000],
    [1500.5], [1e+21]), which determines it. *)
Record JsNumber := mkNumber { numberText : jstring }.

(** The literal [30000]. *)
Definition ms30000 : JsNumber := mkNumber (lit "30000").

Module Js.

(** [`${n}`] for a non-negative integer below 1e21 (a line number, a
    length). *)
Definition showNat (n : nat) : jstring :=
  lit (NilZero.string_of_uint (Nat.to_uint n)).

(** [`${x}`] for a field that may be missing. *)
Definition showOpt (o : option jstring) : jstring :=
  match o with
  | Some s => s
  | None => lit "undefined"
  end.

(** The code units that [String.prototype.trim] removes: WhiteSpace (TAB,
    VT, FF, SP, NBSP, ZWNBSP and the space separators U+1680,
    U+2000..U+200A, U+202F, U+205F, U+3000) and LineTerminator (LF, CR,
    U+2028, U+2029). *)
Definition isWhiteSpace (c : N) : bool :=
  ((9 <=? c) && (c <=? 13) || (c =? 32) || (c =? 160) || (c =? 5760)
   || (8192 <=? c) && (c <=? 8202) || (c =? 8232) || (c =? 8233)
   || (c =? 8239) || (c =? 8287) || (c =? 12288) || (c =? 65279))%N.

Fixpoint trimStart (s : jstring) : jstring :=
  match s with
  | [] => []
  | c :: rest => if isWhiteSpace c then trimStart rest else s
  end.

(** [trimEnd] drops the trailing white space: a character survives when
    it is not white space or when something after it survives. *)
Fixpoint trimEnd (s : jstring) : jstring :=
  match s with
  | [] => []
  | c :: rest =>
      match trimEnd rest with
      | [] => if isWhiteSpace c then [] else [c]
      | kept => c :: kept
      end
  end.

Definition trim (s : jstring) : jstring := trimEnd (trimStart s).

(** Truthiness of a string value: [!s] is [true] exactly on the empty
    string. *)
Definition truthy (s : jstring) : bool :=
  match s with
  | [] => false
  | _ :: _ => true
  end.

(** Truthiness of a possibly missing string ([undefined] is falsy). *)
Definition truthyOpt (o : option jstring) : bool :=
  match o with
  | Some s => truthy s
  | None => false
  end.

(** [a === b] on strings. *)
Fixpoint eqb (a b : jstring) : bool :=
  match a, b with
  | [], [] => true
  | x :: a', y :: b' => N.eqb x y && eqb a' b'
  | _, _ => false
  end.

(** [xs.join(sep)]. *)
Fixpoint join (sep : jstring) (xs : list jstring) : jstring :=
  match xs with
  | [] => []
  | [x] => x
  | x :: rest => x ++ sep ++ join sep rest
  end.

(** [xs.includes(x)]. *)
Fixpoint includes (xs : list jstring) (x : jstring) : bool :=
  match xs with
  | [] => false
  | y :: rest => eqb y x || includes rest x
  end.

(** [s] occurs inside [t]. *)
Definition Contains (t s : jstring) : Prop :=
  exists pre post, t = pre ++ s ++ post.

(** All characters of [s] are white space. *)
Fixpoint allWhiteSpace (s : jstring) : bool :=
  match s with
  | [] => true
  | c :: rest => isWhiteSpace c && allWhiteSpace rest
  end.

End Js.

(* ================================================================== *)
(** ** The host's text document *)
(* ================================================================== *)

(** Host model (the [vscode] API is not part of the repository): a document
    is its text with LF line ends; a position is a zero-based line and
    character (a count of code units); the host clamps a position that lies
    outside the text to the nearest valid one before it reads or edits a
    range. *)

Module Doc.

Record Position := mkPosition { line : nat; character : nat }.

Record Range := mkRange { start : Position; end_ : Position }.

Definition LF : N := 10%N.

Definition position_eqb (p q : Position) : bool :=
  (line p =? line q) && (character p =? character q).

(** [range.isEmpty]. *)
Definition isEmpty (r : Range) : bool := position_eqb (start r) (end_ r).

(** [document.lineCount]: one more than the number of line ends. *)
Fixpoint lineCount (text : jstring) : nat :=
  match text with
  | [] => 1
  | c :: rest => if N.eqb c LF then S (lineCount rest) else lineCount rest
  end.

(** Offset of the (clamped) position [(ln, ch)] in [text]: a character
    past the end of its line stops at the line end, a line past the last
    line stops at the end of the text. *)
Fixpoint offsetAt (text : jstring) (ln ch : nat) : nat :=
  match text with
  | [] => 0
  | c :: rest =>
      if N.eqb c LF then
        match ln with
        | 0 => 0
        | S ln' => S (offsetAt rest ln' ch)
        end
      else
        match ln, ch with
        | 0, 0 => 0
        | 0, S ch' => S (offsetAt rest 0 ch')
        | S _, _ => S (offsetAt rest ln ch)
        end
  end.

Definition offsetOf (text : jstring) (p : Position) : nat :=
  offsetAt text (line p) (character p).

(** [document.getText(range)]. *)
Definition getTextIn (text : jstring) (r : Range) : jstring :=
  let a := offsetOf text (start r) in
  let b := offsetOf text (end_ r) in
  firstn (b - a) (skipn a text).

(** The text once [editBuilder.replace(range, newText)] is applied. *)
Definition replace (text : jstring) (r : Range) (newText : jstring) : jstring :=
  let a := offsetOf text (start r) in
  let b := offsetOf text (end_ r) in
  firstn a text ++ newText ++ skipn (Nat.max a b) text.

(** [new vscode.Range(0, 0, document.lineCount, 0)]. *)
Definition wholeRange (text : jstring) : Range :=
  mkRange (mkPosition 0 0) (mkPosition (lineCount text) 0).

End Doc.

(* ================================================================== *)
(** ** Data model *)
(* ================================================================== *)

(** [vscode.DiagnosticSeverity]; the reverse enum mapping
    [DiagnosticSeverity[d.severity]] yields the member's name. *)
Inductive DiagnosticSeverity := Error | Warning | Information | Hint.

Definition severityName (s : DiagnosticSeverity) : jstring :=
  match s with
  | Error => lit "Error"
  | Warning => lit "Warning"
  | Information => lit "Information"
  | Hint => lit "Hint"
  end.

Record Diagnostic := mkDiagnostic {
  diag_range : Doc.Range;
  diag_message : jstring;
  diag_severity : DiagnosticSeverity
}.

(** [interface CodeFixPayload]. *)
Record CodeFixPayload := mkPayload {
  code : jstring;
  language : jstring;
  filename : jstring;
  problems : list jstring
}.

(** [interface CodeFixResponse]: the fields of a response body whose
    properties can be read.  A field the body does not carry reads as
    [undefined] ([None]).  [fixedCode] is tested for truthiness before it
    is used, so a falsy value that is no string ([null]) stands as [None];
    a truthy [fixedCode] that is no string is outside the embedding.
    [explanation] is only ever printed, so a value that is no string
    stands as the text that printing gives ([null] as the four characters
    of that word). *)
Record CodeFixResponse := mkResponse {
  fixedCode : option jstring;
  explanation : option jstring;
  confidence : option JsNumber
}.

(** [response.data]: JSON [null], on which reading a property throws, or a
    value whose properties can be read (an object with the fields it
    carries; a string, number, boolean or array, which carries none). *)
Inductive Body :=
| BodyNull
| BodyObject (r : CodeFixResponse).

(** An instance of [Error]: [new Error(m)] has only a message; the HTTP
    client's errors also carry [code] and [response.status]. *)
Record ErrorObject := mkError {
  err_code : option jstring;
  err_status : option Z;
  err_message : jstring
}.

Definition newError (m : jstring) : ErrorObject := mkError None None m.

(** A thrown value ([error: any]): an [Error] instance, or some other
    value, with the [code] and the [response.status] it carries ([None]
    where it carries none, as [undefined], [null] or a string do). *)
Inductive Thrown :=
| ThrownError (e : ErrorObject)
| ThrownOther (code : option jstring) (status : option Z).

(** [error.code] and [error.response?.status] of a thrown value. *)
Definition codeOf (error : Thrown) : option jstring :=
  match error with
  | ThrownError e => err_code e
  | ThrownOther code _ => code
  end.

Definition statusOf (error : Thrown) : option Z :=
  match error with
  | ThrownError e => err_status e
  | ThrownOther _ status => status
  end.

(** One call of [axios.post(url, payload, {timeout, headers})]; the headers
    are the same two constants on every call. *)
Record Request := mkRequest {
  req_url : jstring;
  req_payload : CodeFixPayload;
  req_timeout : JsNumber
}.

Inductive Severity := SevInformation | SevWarning | SevError.

(** One call of [window.show{Information,Warning,Error}Message]. *)
Record Message := mkMessage {
  msg_severity : Severity;
  msg_text : jstring;
  msg_modal : bool;
  msg_items : list jstring
}.

Definition notice (s : Severity) (t : jstring) : Message := mkMessage s t false [].

(** What [console.log] / [console.error] was called with. *)
Inductive ConsoleEntry :=
| LogSending (p : CodeFixPayload)
| LogResponse (b : Body)
| LogError (e : Thrown).

(** The side that the handler acts on.  Every list is a chronological log:
    a new entry is appended at its end.  [edits] holds the edits given to
    the editor, whether or not it applied them; [diffs] holds, for each
    diff opened, the two texts inserted into the scratch documents and the
    title. *)
Record World := mkWorld {
  document : jstring;
  messages : list Message;
  requests : list Request;
  edits : list (Doc.Range * jstring);
  diffs : list (jstring * jstring * jstring);
  progress : list (nat * jstring);
  console : list ConsoleEntry
}.

Record Editor := mkEditor {
  languageId : jstring;
  fileName : jstring;
  selection : Doc.Range
}.

(** The [selfHealing] configuration section; [None] is an unset key. *)
Record Config := mkConfig {
  n8nWebhookUrl : option jstring;
  requestTimeout : option JsNumber;
  enableLogging : option bool;
  showDiffPreview : option bool
}.

(** [config.get(key, fallback)]. *)
Definition get {A} (o : option A) (fallback : A) : A :=
  match o with
  | Some v => v
  | None => fallback
  end.

(** What the host decides during one invocation. *)
Record Host := mkHost {
  activeTextEditor : option Editor;
  configuration : Config;
  diagnostics : list Diagnostic;
  (** how the single POST settles: rejected with a value, or a body *)
  httpOutcome : Request -> Thrown + Body;
  (** the document text when the POST settles, when the user edited the
      document while the request was in flight *)
  typedMeanwhile : option jstring;
  (** the item picked at the first and the second prompt ([None]: the
      prompt was dismissed) *)
  firstAnswer : option jstring;
  secondAnswer : option jstring;
  (** what [editor.edit] resolves to: whether the editor applied the edit
      it was given *)
  editApplied : bool
}.

(* ================================================================== *)
(** ** State and exceptions *)
(* ================================================================== *)

Inductive Outcome (A : Type) :=
| Returned (a : A)
| Threw (e : Thrown).
Arguments Returned {A} a.
Arguments Threw {A} e.

Definition M (A : Type) : Type := World -> Outcome A * World.

Definition ret {A} (a : A) : M A := fun w => (Returned a, w).

Definition throw {A} (e : Thrown) : M A := fun w => (Threw e, w).

Definition bind {A B} (m : M A) (k : A -> M B) : M B :=
  fun w =>
    match m w with
    | (Returned a, w') => k a w'
    | (Threw e, w') => (Threw e, w')
    end.

(** [try { m } catch (error) { handler error }]. *)
Definition tryCatch {A} (m : M A) (handler : Thrown -> M A) : M A :=
  fun w =>
    match m w with
    | (Returned a, w') => (Returned a, w')
    | (Threw e, w') => handler e w'
    end.

Definition when (b : bool) (m : M unit) : M unit :=
  if b then m else ret tt.

Declare Scope js_scope.
Delimit Scope js_scope with js.
Notation "x <- m ;; k" := (bind m (fun x => k))
  (at level 100, m at next level, right associativity) : js_scope.
Notation "m ;;; k" := (bind m (fun _ => k))
  (at level 100, right associativity) : js_scope.
Local Open Scope js_scope.

(* ================================================================== *)
(** ** Host calls *)
(* ================================================================== *)

(** The world once one more message is on screen. *)
Definition pushMessage (m : Message) (w : World) : World :=
  mkWorld (document w) (messages w ++ [m]) (requests w) (edits w)
          (diffs w) (progress w) (console w).

Definition pushProgress (increment : nat) (message : jstring) (w : World) : World :=
  mkWorld (document w) (messages w) (requests w) (edits w)
          (diffs w) (progress w ++ [(increment, message)]) (console w).

Definition pushConsole (e : ConsoleEntry) (w : World) : World :=
  mkWorld (document w) (messages w) (requests w) (edits w)
          (diffs w) (progress w) (console w ++ [e]).

Definition pushDiff (original fixed title : jstring) (w : World) : World :=
  mkWorld (document w) (messages w) (requests w) (edits w)
          (diffs w ++ [(original, fixed, title)]) (progress w) (console w).

(** The world once the request [rq] has settled: it is on the wire log,
    and the document holds whatever the user typed while it was in
    flight.  The wait for the response is the one point at which the
    embedding lets the user change the text: typing while a prompt is open
    is not modelled, and a statement about the text after a prompt says
    what the handler did to it. *)
Definition pushRequest (typed : option jstring) (rq : Request) (w : World) : World :=
  mkWorld (get typed (document w)) (messages w) (requests w ++ [rq]) (edits w)
          (diffs w) (progress w) (console w).

(** The world once the editor was given the edit that replaces the range
    [r] by [newText]: the edit is on the log, and the text has changed if
    the editor applied it. *)
Definition pushEdit (applies : bool) (r : Doc.Range) (newText : jstring)
    (w : World) : World :=
  mkWorld (if applies then Doc.replace (document w) r newText else document w)
          (messages w) (requests w)
          (edits w ++ [(r, newText)]) (diffs w) (progress w) (console w).

Definition showMessage (m : Message) : M unit :=
  fun w => (Returned tt, pushMessage m w).

Definition showInformationMessage (t : jstring) : M unit :=
  showMessage (notice SevInformation t).

Definition showWarningMessage (t : jstring) : M unit :=
  showMessage (notice SevWarning t).

Definition showErrorMessage (t : jstring) : M unit :=
  showMessage (notice SevError t).

(** [await window.showInformationMessage(text, {modal}, ...items)]: shows the
    prompt and resolves to the user's [answer]. *)
Definition prompt (t : jstring) (isModal : bool) (choices : list jstring)
    (answer : option jstring) : M (option jstring) :=
  showMessage (mkMessage SevInformation t isModal choices) ;;; ret answer.

(** [progress.report({increment, message})]. *)
Definition report (increment : nat) (message : jstring) : M unit :=
  fun w => (Returned tt, pushProgress increment message w).

(** [console.log] / [console.error]. *)
Definition consoleWrite (e : ConsoleEntry) : M unit :=
  fun w => (Returned tt, pushConsole e w).

(** [await axios.post(url, payload, {timeout, headers})]: the request is
    issued; while it is in flight the user may edit the document; then the
    promise settles as the host says. *)
Definition axiosPost (h : Host) (url : jstring) (p : CodeFixPayload)
    (t : JsNumber) : M Body :=
  fun w =>
    let rq := mkRequest url p t in
    match httpOutcome h rq with
    | inl e => (Threw e, pushRequest (typedMeanwhile h) rq w)
    | inr r => (Returned r, pushRequest (typedMeanwhile h) rq w)
    end.

(** [await editor.edit(b => b.replace(range, newText))]; what the promise
    resolves to is dropped by the one caller.  (An editor that was closed
    in the meantime, on which the call throws, is outside the
    embedding.) *)
Definition editReplace (h : Host) (r : Doc.Range) (newText : jstring) : M unit :=
  fun w => (Returned tt, pushEdit (editApplied h) r newText w).

(** What [showDiffDocument] asks of the host: [original] and [fixed] are
    inserted at the origin of the two scratch documents
    [untitled:Original Code] and [untitled:Fixed Code], and the
    [vscode.diff] command is run on the two under [title].  The log keeps
    the texts inserted and the title, not what the scratch documents hold
    afterwards. *)
Definition executeDiff (original fixed title : jstring) : M unit :=
  fun w => (Returned tt, pushDiff original fixed title w).

Definition readDocument : M jstring := fun w => (Returned (document w), w).

(* ================================================================== *)
(** ** The extension ([src/extension.ts]) *)
(* ================================================================== *)

Definition dquote : jstring := [34%N].

Definition getSupportedLanguages : list jstring :=
  [lit "javascript"; lit "typescript"; lit "python"; lit "java"; lit "cpp"; lit "c";
    lit "go"; lit "php"; lit "csharp"; lit "ruby"; lit "swift"; lit "kotlin" ].

Definition isSupportedLanguage (id : jstring) : bool :=
  Js.includes getSupportedLanguages id.

(** The three characters in front of the success text, as the source file
    holds them: U+00E2, U+0153, U+2026. *)
Definition successMark : jstring := [226; 339; 8230]%N.

Definition showSuccessMessage (explanation : option jstring) : M unit :=
  showInformationMessage
    (successMark ++ lit " Code fixed successfully! " ++ Js.showOpt explanation).

Definition genericMessage : jstring := lit "An error occurred while fixing code.".

Definition handleError (error : Thrown) : M unit :=
  consoleWrite (LogError error) ;;;
  let message :=
    match error with
    | ThrownError e => err_message e
    | ThrownOther _ _ => genericMessage
    end in
  showErrorMessage (lit "Self-Healing Assistant: " ++ message).

(** One line per diagnostic. *)
Definition formatDiagnostic (d : Diagnostic) : jstring :=
  let line := Doc.line (Doc.start (diag_range d)) + 1 in
  let severity := severityName (diag_severity d) in
  (lit "Line ") ++ Js.showNat line ++ lit ": " ++ diag_message d ++ lit " (" ++ severity ++ lit ")".

Definition getProblemsForFile (h : Host) : M (list jstring) :=
  ret (map formatDiagnostic (diagnostics h)).

Definition applyFixedCode (h : Host) (fixed : jstring) (range : Doc.Range)
    : M unit :=
  editReplace h range fixed.

Definition showDiffDocument (originalCode fixed : jstring)
    (explanation : option jstring) : M unit :=
  executeDiff originalCode fixed (lit "AI Code Fixes: " ++ Js.showOpt explanation).

Definition showDiffAndApply (h : Host) (originalCode fixed : jstring)
    (explanation : option jstring) (range : Doc.Range) : M unit :=
  action <- prompt (lit "AI suggests changes: " ++ Js.showOpt explanation) true
                   [lit "Apply Changes"; lit "Show Diff"; lit "Cancel"] (firstAnswer h) ;;
  match action with
  | Some a =>
      if Js.eqb a (lit "Apply Changes") then
        applyFixedCode h fixed range ;;;
        showSuccessMessage explanation
      else if Js.eqb a (lit "Show Diff") then
        showDiffDocument originalCode fixed explanation ;;;
        applyAction <- prompt (lit "Apply the changes shown in diff?") false
                              [lit "Apply"; lit "Cancel"] (secondAnswer h) ;;
        match applyAction with
        | Some b =>
            if Js.eqb b (lit "Apply") then
              applyFixedCode h fixed range ;;;
              showSuccessMessage explanation
            else ret tt
        | None => ret tt
        end
      else if Js.eqb a (lit "Cancel") then
        showInformationMessage (lit "Code fix cancelled.")
      else ret tt
  | None => ret tt
  end.

Definition configErrorMessage : jstring :=
  lit "n8n webhook URL not configured. Please check your settings.".

Definition serviceUnavailableMessage (webhookUrl : jstring) : jstring :=
  lit "Cannot connect to n8n at " ++ webhookUrl ++ lit ". Is n8n running?".

Definition endpointNotFoundMessage : jstring :=
  lit "Webhook endpoint not found. Check your n8n workflow.".

Definition timeoutMessage (timeout : JsNumber) : jstring :=
  lit "Request timed out after " ++ numberText timeout
    ++ lit "ms. Try increasing the timeout.".

Definition optString_eqb (o : option jstring) (s : jstring) : bool :=
  match o with
  | Some t => Js.eqb t s
  | None => false
  end.

Definition optZ_eqb (o : option Z) (z : Z) : bool :=
  match o with
  | Some y => Z.eqb y z
  | None => false
  end.

(** The [catch (error: any)] block of [sendCodeToAI]: what it throws.  The
    tests read [code] and [response?.status] off whatever was caught; a
    falsy value, which the guard [if (error)] skips, carries neither and
    is thrown on by the same last line. *)
Definition rethrow (webhookUrl : jstring) (timeout : JsNumber) (error : Thrown)
    : Thrown :=
  if optString_eqb (codeOf error) (lit "ECONNREFUSED") then
    ThrownError (newError (serviceUnavailableMessage webhookUrl))
  else if optZ_eqb (statusOf error) 404 then
    ThrownError (newError endpointNotFoundMessage)
  else if optString_eqb (codeOf error) (lit "ECONNABORTED") then
    ThrownError (newError (timeoutMessage timeout))
  else error.

Definition sendCodeToAI (h : Host) (payload : CodeFixPayload) : M Body :=
  let config := configuration h in
  let webhookUrl := n8nWebhookUrl config in
  let timeout := get (requestTimeout config) ms30000 in
  let logging := get (enableLogging config) false in
  match webhookUrl with
  | Some url =>
      if Js.truthy url then
        when logging
          (consoleWrite
             (LogSending
                (mkPayload (Js.showNat (List.length (code payload)) ++ lit " chars")
                           (language payload) (filename payload)
                           (problems payload)))) ;;;
        tryCatch
          (response <- axiosPost h url payload timeout ;;
           when logging (consoleWrite (LogResponse response)) ;;;
           ret response)
          (fun error => throw (rethrow url timeout error))
      else throw (ThrownError (newError configErrorMessage))
  | None => throw (ThrownError (newError configErrorMessage))
  end.

Definition invalidResponseMessage : jstring := lit "No fixed code received from AI".

(** The message of the [TypeError] that reading [result.fixedCode] throws
    when [result] is [null] (the wording of the V8 engine that runs the
    extension host). *)
Definition nullBodyMessage : jstring :=
  lit "Cannot read properties of null (reading 'fixedCode')".

(** The task run under [window.withProgress] (the body of the [try]). *)
Definition fixCodeTask (h : Host) (editor : Editor) (codeToFix : jstring)
    (rangeToReplace : Doc.Range) : M unit :=
  report 0 (lit "Analyzing code...") ;;;
  problems <- getProblemsForFile h ;;
  report 20 (lit "Sending to AI...") ;;;
  result <- sendCodeToAI h
              (mkPayload codeToFix (languageId editor) (fileName editor) problems) ;;
  report 70 (lit "Processing response...") ;;;
  match result with
  | BodyNull => throw (ThrownError (newError nullBodyMessage))
  | BodyObject data =>
      match fixedCode data with
      | Some fixed =>
          if Js.truthy fixed then
            report 90 (lit "Applying changes...") ;;;
            (if get (showDiffPreview (configuration h)) true then
               showDiffAndApply h codeToFix fixed (explanation data)
                                rangeToReplace
             else
               applyFixedCode h fixed rangeToReplace ;;;
               showSuccessMessage (explanation data)) ;;;
            report 100 (lit "Complete!")
          else throw (ThrownError (newError invalidResponseMessage))
      | None => throw (ThrownError (newError invalidResponseMessage))
      end
  end.

Definition noEditorMessage : jstring :=
  lit "No active editor found. Please open a file first.".

Definition unsupportedMessage (id : jstring) : jstring :=
  lit "Language " ++ dquote ++ id ++ dquote ++ lit " is not supported yet. Supported: "
    ++ Js.join (lit ", ") getSupportedLanguages.

Definition noSelectionMessage : jstring :=
  lit "No code selected. Select code first or use " ++ dquote ++ lit "Fix Entire File"
    ++ dquote ++ lit ".".

Definition emptyInputMessage : jstring := lit "Selected code is empty.".

(** The text to send and the range to replace (the [if] / [else if] /
    [else] on [selectionOnly] and [hasSelection]); [None] is the branch that
    reports a missing selection. *)
Definition chooseTarget (selectionOnly : bool) (editor : Editor) (text : jstring)
    : option (jstring * Doc.Range) :=
  let hasSelection := negb (Doc.isEmpty (selection editor)) in
  if selectionOnly && hasSelection then
    Some (Doc.getTextIn text (selection editor), selection editor)
  else if negb selectionOnly then
    Some (text, Doc.wholeRange text)
  else None.

Definition fixCode (h : Host) (selectionOnly : bool) : M unit :=
  match activeTextEditor h with
  | None => showErrorMessage noEditorMessage
  | Some editor =>
      if negb (isSupportedLanguage (languageId editor)) then
        showWarningMessage (unsupportedMessage (languageId editor))
      else
        text <- readDocument ;;
        match chooseTarget selectionOnly editor text with
        | None => showErrorMessage noSelectionMessage
        | Some (codeToFix, rangeToReplace) =>
            if negb (Js.truthy (Js.trim codeToFix)) then
              showErrorMessage emptyInputMessage
            else
              tryCatch (fixCodeTask h editor codeToFix rangeToReplace) handleError
        end
  end.

(** The two registered commands. *)
Definition cmd_fixCode (h : Host) : M unit := fixCode h false.
Definition cmd_fixSelection (h : Host) : M unit := fixCode h true.

(* ================================================================== *)
(** ** Vocabulary of the statements *)
(* ================================================================== *)

(** The invocation passes every check made before the [try]: [editor] is
    the active editor, [codeToFix] the text to send and [rangeToReplace]
    the range computed for it. *)
Definition Accepted (h : Host) (selectionOnly : bool) (w : World)
    (editor : Editor) (codeToFix : jstring) (rangeToReplace : Doc.Range) : Prop :=
  activeTextEditor h = Some editor
  /\ isSupportedLanguage (languageId editor) = true
  /\ chooseTarget selectionOnly editor (document w) = Some (codeToFix, rangeToReplace)
  /\ Js.truthy (Js.trim codeToFix) = true.

(** The messages with which the handler turns an invocation down. *)
Definition rejections (h : Host) : list Message :=
  notice SevError noEditorMessage
  :: notice SevError noSelectionMessage
  :: notice SevError emptyInputMessage
  :: match activeTextEditor h with
     | Some editor => [notice SevWarning (unsupportedMessage (languageId editor))]
     | None => []
     end.

(** The payload built for an accepted invocation. *)
Definition payloadFor (h : Host) (editor : Editor) (codeToFix : jstring)
    : CodeFixPayload :=
  mkPayload codeToFix (languageId editor) (fileName editor)
            (map formatDiagnostic (diagnostics h)).

Definition timeoutOf (h : Host) : JsNumber :=
  get (requestTimeout (configuration h)) ms30000.

(** The endpoint [url] is configured and the POST of [p] to it settles
    with [result]. *)
Definition Settles (h : Host) (url : jstring) (p : CodeFixPayload)
    (result : Thrown + Body) : Prop :=
  n8nWebhookUrl (configuration h) = Some url
  /\ Js.truthy url = true
  /\ httpOutcome h (mkRequest url p (timeoutOf h)) = result.

(** The document text when the POST has settled. *)
Definition textAtResponse (h : Host) (w : World) : jstring :=
  get (typedMeanwhile h) (document w).

(** The handler gave the editor no edit between [w] and [w'], so none was
    applied: the edit log is the same, and the text is what the user left
    there. *)
Definition NoEditApplied (h : Host) (w w' : World) : Prop :=
  edits w' = edits w
  /\ (document w' = document w \/ document w' = textAtResponse h w).

(** The text to be sent for the chosen scope, whether or not a selection
    exists. *)
Definition inputText (selectionOnly : bool) (editor : Editor) (text : jstring)
    : jstring :=
  if selectionOnly then Doc.getTextIn text (selection editor) else text.

(** The first and the second prompt of the diff/apply flow. *)
Definition firstPrompt (explanation : option jstring) : Message :=
  mkMessage SevInformation (lit "AI suggests changes: " ++ Js.showOpt explanation)
            true [lit "Apply Changes"; lit "Show Diff"; lit "Cancel"].

Definition secondPrompt : Message :=
  mkMessage SevInformation (lit "Apply the changes shown in diff?") false
            [lit "Apply"; lit "Cancel"].

Definition successNotice (explanation : option jstring) : Message :=
  notice SevInformation
    (successMark ++ lit " Code fixed successfully! " ++ Js.showOpt explanation).

Definition cancelledNotice : Message :=
  notice SevInformation (lit "Code fix cancelled.").

Definition errorNotice (message : jstring) : Message :=
  notice SevError (lit "Self-Healing Assistant: " ++ message).

(** [console.log] under the [enableLogging] setting. *)
Definition logged (h : Host) (e : ConsoleEntry) (w : World) : World :=
  if get (enableLogging (configuration h)) false then pushConsole e w else w.

Definition sendingEntry (p : CodeFixPayload) : ConsoleEntry :=
  LogSending (mkPayload (Js.showNat (List.length (code p)) ++ lit " chars")
                        (language p) (filename p) (problems p)).

(** The world once the POST of [p] to [url] has settled. *)
Definition afterPost (h : Host) (url : jstring) (p : CodeFixPayload) (w : World)
    : World :=
  pushRequest (typedMeanwhile h) (mkRequest url p (timeoutOf h))
              (logged h (sendingEntry p) w).

(** The world when the task is about to send the request. *)
Definition started (w : World) : World :=
  pushProgress 20 (lit "Sending to AI...") (pushProgress 0 (lit "Analyzing code...") w).

(** The world when the task has sent the request and looks at the reply. *)
Definition atReply (h : Host) (url : jstring) (p : CodeFixPayload)
    (b : Body) (w : World) : World :=
  pushProgress 70 (lit "Processing response...")
    (logged h (LogResponse b)
       (afterPost h url p (started w))).

(** The world when the task enters the apply stage. *)
Definition atStage (h : Host) (url : jstring) (p : CodeFixPayload)
    (r : CodeFixResponse) (w : World) : World :=
  pushProgress 90 (lit "Applying changes...")
               (atReply h url p (BodyObject r) w).

(** The world at the points of the diff/apply flow. *)
Definition asked (explanation : option jstring) (w : World) : World :=
  pushMessage (firstPrompt explanation) w.

Definition diffShown (originalCode fixed : jstring) (explanation : option jstring)
    (w : World) : World :=
  pushMessage secondPrompt
    (pushDiff originalCode fixed (lit "AI Code Fixes: " ++ Js.showOpt explanation)
              (asked explanation w)).

Definition applied (h : Host) (fixed : jstring) (explanation : option jstring)
    (range : Doc.Range) (w : World) : World :=
  pushMessage (successNotice explanation)
              (pushEdit (editApplied h) range fixed w).

(** The ways the task can end, from the world [w] it starts in: the
    outcome and the world it leaves. *)
Inductive TaskEnd (h : Host) (editor : Editor) (codeToFix : jstring)
    (rangeToReplace : Doc.Range) (w : World) : Outcome unit -> World -> Prop :=
| EndUnconfigured :
    Js.truthyOpt (n8nWebhookUrl (configuration h)) = false ->
    TaskEnd h editor codeToFix rangeToReplace w
      (Threw (ThrownError (newError configErrorMessage))) (started w)
| EndRejected url e :
    Settles h url (payloadFor h editor codeToFix) (inl e) ->
    TaskEnd h editor codeToFix rangeToReplace w
      (Threw (rethrow url (timeoutOf h) e))
      (afterPost h url (payloadFor h editor codeToFix) (started w))
| EndNullBody url :
    Settles h url (payloadFor h editor codeToFix) (inr BodyNull) ->
    TaskEnd h editor codeToFix rangeToReplace w
      (Threw (ThrownError (newError nullBodyMessage)))
      (atReply h url (payloadFor h editor codeToFix) BodyNull w)
| EndInvalid url r :
    Settles h url (payloadFor h editor codeToFix) (inr (BodyObject r)) ->
    Js.truthyOpt (fixedCode r) = false ->
    TaskEnd h editor codeToFix rangeToReplace w
      (Threw (ThrownError (newError invalidResponseMessage)))
      (atReply h url (payloadFor h editor codeToFix) (BodyObject r) w)
| EndStage url r fixed w1 w2 :
    Settles h url (payloadFor h editor codeToFix) (inr (BodyObject r)) ->
    fixedCode r = Some fixed -> Js.truthy fixed = true ->
    w1 = atStage h url (payloadFor h editor codeToFix) r w ->
    requests w2 = requests w1 ->
    progress w2 = progress w1 ->
    (exists shown, messages w2 = (messages w1 ++ shown)%list
       /\ Forall (fun m => msg_severity m = SevInformation) shown) ->
    ((edits w2 = edits w1 /\ document w2 = document w1)
     \/ (edits w2 = (edits w1 ++ [(rangeToReplace, fixed)])%list
         /\ document w2
            = if editApplied h
              then Doc.replace (document w1) rangeToReplace fixed
              else document w1)) ->
    TaskEnd h editor codeToFix rangeToReplace w
      (Returned tt) (pushProgress 100 (lit "Complete!") w2).



(** The host [h] with the selection of its editor moved to [sel]. *)
Definition withSelection (h : Host) (sel : Doc.Range) : Host :=
  mkHost (option_map (fun e => mkEditor (languageId e) (fileName e) sel)
                     (activeTextEditor h))
         (configuration h) (diagnostics h) (httpOutcome h) (typedMeanwhile h)
         (firstAnswer h) (secondAnswer h) (editApplied h).

(** The messages shown, and the progress steps reported, since [w]. *)
Definition shownSince (w w' : World) : list Message :=
  skipn (List.length (messages w)) (messages w').

Definition reportedSince (w w' : World) : list (nat * jstring) :=
  skipn (List.length (progress w)) (progress w').



(** The four progress steps before the last, and all five. *)
Definition stepsToStage : list (nat * jstring) :=
  [(0, lit "Analyzing code..."); (20, lit "Sending to AI...");
   (70, lit "Processing response..."); (90, lit "Applying changes...")].

Definition allSteps : list (nat * jstring) :=
  (stepsToStage ++ [(100, lit "Complete!")])%list.

(** What one invocation adds to the four logs of the host: the messages
    it shows, the edits it gives to the editor, the progress steps it
    reports and the diffs it opens.  Eight shapes exist. *)
Inductive Trace (h : Host) :
  list Message -> list (Doc.Range * jstring) -> list (nat * jstring)
  -> list (jstring * jstring * jstring) -> Prop :=
| TraceTurnedDown m :
    In m (rejections h) ->
    Trace h [m] [] [] []
| TraceThrown text steps :
    In steps [ [(0, lit "Analyzing code..."); (20, lit "Sending to AI...")];
               [(0, lit "Analyzing code..."); (20, lit "Sending to AI...");
                (70, lit "Processing response...")] ] ->
    Trace h [errorNotice text] [] steps []
| TraceDirect rg fixed explained :
    get (showDiffPreview (configuration h)) true = false ->
    Trace h [successNotice explained] [(rg, fixed)] allSteps []
| TraceDismissed explained :
    get (showDiffPreview (configuration h)) true = true ->
    Trace h [firstPrompt explained] [] allSteps []
| TraceApplied rg fixed explained :
    get (showDiffPreview (configuration h)) true = true ->
    Trace h [firstPrompt explained; successNotice explained] [(rg, fixed)]
          allSteps []
| TraceCancelled explained :
    get (showDiffPreview (configuration h)) true = true ->
    Trace h [firstPrompt explained; cancelledNotice] [] allSteps []
| TraceDiffApplied rg c fixed explained :
    get (showDiffPreview (configuration h)) true = true ->
    Trace h [firstPrompt explained; secondPrompt; successNotice explained]
          [(rg, fixed)] allSteps
          [(c, fixed, lit "AI Code Fixes: " ++ Js.showOpt explained)]
| TraceDiffOnly c fixed explained :
    get (showDiffPreview (configuration h)) true = true ->
    Trace h [firstPrompt explained; secondPrompt] [] allSteps
          [(c, fixed, lit "AI Code Fixes: " ++ Js.showOpt explained)].

(* ================================================================== *)
(** ** Sample invocations *)
(* ================================================================== *)

Module Sample.

Definition range (l1 c1 l2 c2 : nat) : Doc.Range :=
  Doc.mkRange (Doc.mkPosition l1 c1) (Doc.mkPosition l2 c2).

(** A fresh host side holding [text]. *)
Definition world (text : jstring) : World := mkWorld text [] [] [] [] [] [].

Definition endpoint : jstring := lit "http://localhost:5678/webhook/fix".

Definition config (url : option jstring) (preview : option bool) : Config :=
  mkConfig url None None preview.

Definition editorOn (lang : jstring) (sel : Doc.Range) : Editor :=
  mkEditor lang (lit "/work/app.js") sel.

Definition typoDiagnostic : Diagnostic :=
  mkDiagnostic (range 0 0 0 7) (lit "Cannot find name") Error.

Definition typoFix : CodeFixResponse :=
  mkResponse (Some (lit "console.log(1)")) (Some (lit "fixed typo")) None.

(** A host with an editor on a document in [lang], the selection [sel],
    one diagnostic, and a service that settles every request with
    [outcome]. *)
Definition host (lang : jstring) (sel : Doc.Range) (cfg : Config)
    (outcome : Thrown + Body) (typed : option jstring)
    (first second : option jstring) : Host :=
  mkHost (Some (editorOn lang sel)) cfg [typoDiagnostic] (fun _ => outcome)
         typed first second true.

(** The scenario of the specification: the selection [cosnole.log(1)] of a
    JavaScript document, preview off. *)
Definition typoHost : Host :=
  host (lit "javascript") (range 0 0 0 14) (config (Some endpoint) (Some false))
       (inr (BodyObject typoFix)) None None None.

Definition typoWorld : World := world (lit "cosnole.log(1)").

Definition typoPayload : CodeFixPayload :=
  mkPayload (lit "cosnole.log(1)") (lit "javascript") (lit "/work/app.js") [].

(** No editor is open. *)
Definition noEditorHost : Host :=
  mkHost None (config (Some endpoint) None) [] (fun _ => inr (BodyObject typoFix))
         None None None true.

(** No endpoint is configured. *)
Definition unconfiguredHost : Host :=
  host (lit "javascript") (range 0 0 0 14) (config None None)
       (inr (BodyObject typoFix)) None None None.

(** A document in a language outside the allow-list. *)
Definition rustHost : Host :=
  host (lit "rust") (range 0 0 0 0) (config (Some endpoint) None)
       (inr (BodyObject typoFix)) None None None.

(** The transport rejects with [e]. *)
Definition failingHost (e : ErrorObject) : Host :=
  host (lit "javascript") (range 0 0 0 14) (config (Some endpoint) None)
       (inl (ThrownError e)) None None None.

Definition refused : ErrorObject :=
  mkError (Some (lit "ECONNREFUSED")) None (lit "connect ECONNREFUSED 127.0.0.1:5678").

Definition notFound : ErrorObject :=
  mkError (Some (lit "ERR_BAD_REQUEST")) (Some 404%Z) (lit "Request failed with status code 404").

Definition timedOut : ErrorObject :=
  mkError (Some (lit "ECONNABORTED")) None (lit "timeout of 30000ms exceeded").

Definition serverError : ErrorObject :=
  mkError (Some (lit "ERR_BAD_RESPONSE")) (Some 500%Z) (lit "Request failed with status code 500").

(** The service answers with a body that has no [fixedCode]. *)
Definition emptyReplyHost : Host :=
  host (lit "javascript") (range 0 0 0 14) (config (Some endpoint) None)
       (inr (BodyObject (mkResponse None (Some (lit "nothing to fix")) None)))
       None None None.

(** Preview on (the default); the user answers the prompts with [first]
    and [second]. *)
Definition previewHost (first second : option jstring) : Host :=
  host (lit "javascript") (range 0 0 0 14) (config (Some endpoint) None)
       (inr (BodyObject typoFix)) None first second.

(** The user types an [x] in front of the document [ab] while the request
    for the selected [a] is in flight; the service answers [A]. *)
Definition racingHost : Host :=
  host (lit "javascript") (range 0 0 0 1) (config (Some endpoint) (Some false))
       (inr (BodyObject (mkResponse (Some (lit "A")) (Some (lit "upper case")) None)))
       (Some (lit "xab")) None None.

Definition racingWorld : World := world (lit "ab").

(** Logging switched on, preview off. *)
Definition loggingHost (outcome : Thrown + Body) : Host :=
  mkHost (Some (editorOn (lit "javascript") (range 0 0 0 14)))
         (mkConfig (Some endpoint) None (Some true) (Some false))
         [typoDiagnostic] (fun _ => outcome) None None None true.

(** The transport rejects with a value that is not an [Error]. *)
Definition oddHost : Host :=
  host (lit "javascript") (range 0 0 0 14) (config (Some endpoint) None)
       (inl (ThrownOther None None)) None None None.


(** Nothing is selected (the cursor sits at the origin). *)
Definition cursorHost : Host :=
  host (lit "javascript") (range 0 0 0 0) (config (Some endpoint) None)
       (inr (BodyObject typoFix)) None None None.

(** The editor of the scenario. *)
Definition typoEditor : Editor := editorOn (lit "javascript") (range 0 0 0 14).




(** The service answers with an empty [fixedCode] and an explanation;
    preview off. *)
Definition emptyFix : CodeFixResponse :=
  mkResponse (Some []) (Some (lit "nothing to fix")) None.

Definition emptyFixHost : Host :=
  host (lit "javascript") (range 0 0 0 14) (config (Some endpoint) (Some false))
       (inr (BodyObject emptyFix)) None None None.

(** The service answers with the JSON body [null]. *)
Definition nullBodyHost : Host :=
  host (lit "javascript") (range 0 0 0 14) (config (Some endpoint) None)
       (inr BodyNull) None None None.

(** The transport rejects with a value that is no [Error] but carries the
    code of a refused connection. *)
Definition codedValueHost : Host :=
  host (lit "javascript") (range 0 0 0 14) (config (Some endpoint) None)
       (inl (ThrownOther (Some (lit "ECONNREFUSED")) None)) None None None.

(** The scenario on an editor that does not apply the edit. *)
Definition refusingHost : Host :=
  mkHost (Some typoEditor) (config (Some endpoint) (Some false))
         [typoDiagnostic] (fun _ => inr (BodyObject typoFix)) None None None
         false.

(** A document that holds two no-break spaces and a line separator. *)
Definition blankWorld : World := world [160; 160; 8232]%N.

(** The request times out under a timeout setting of a second and a half
    and a fraction. *)
Definition impatientHost : Host :=
  mkHost (Some typoEditor)
         (mkConfig (Some endpoint) (Some (mkNumber (lit "1500.5"))) None None)
         [typoDiagnostic] (fun _ => inl (ThrownError timedOut)) None None None
         true.

End Sample.

(* ================================================================== *)
(** ** Sequencing *)
(* ================================================================== *)

Lemma bind_returned {A B} (m : M A) (k : A -> M B) w a w' :
  m w = (Returned a, w') -> bind m k w = k a w'.
Proof. unfold bind. now intros ->. Qed.

Lemma bind_threw {A B} (m : M A) (k : A -> M B) w e w' :
  m w = (Threw e, w') -> bind m k w = (Threw e, w').
Proof. unfold bind. now intros ->. Qed.

Lemma tryCatch_returned {A} (m : M A) (handler : Thrown -> M A) w a w' :
  m w = (Returned a, w') -> tryCatch m handler w = (Returned a, w').
Proof. unfold tryCatch. now intros ->. Qed.

Lemma tryCatch_threw {A} (m : M A) (handler : Thrown -> M A) w e w' :
  m w = (Threw e, w') -> tryCatch m handler w = handler e w'.
Proof. unfold tryCatch. now intros ->. Qed.

(* ================================================================== *)
(** ** Strings and documents *)
(* ================================================================== *)

Lemma jstring_eqb_eq (a b : jstring) : Js.eqb a b = true <-> a = b.
Proof.
  revert b. induction a as [|x a IH]; intros [|y b]; simpl;
    try (split; [discriminate | discriminate]); [tauto|].
  rewrite andb_true_iff, N.eqb_eq, IH. split.
  - now intros [-> ->].
  - intros [= -> ->]. now split.
Qed.


Lemma includes_In (xs : list jstring) (x : jstring) :
  Js.includes xs x = true <-> In x xs.
Proof.
  induction xs as [|y xs IH]; simpl.
  - split; [discriminate | contradiction].
  - rewrite orb_true_iff, jstring_eqb_eq, IH. reflexivity.
Qed.

Lemma includes_not_In (xs : list jstring) (x : jstring) :
  ~ In x xs -> Js.includes xs x = false.
Proof.
  intros H. destruct (Js.includes xs x) eqn:E; [|reflexivity].
  apply includes_In in E. contradiction.
Qed.

Lemma trimStart_allWhiteSpace (s : jstring) :
  Js.allWhiteSpace s = true -> Js.trimStart s = [].
Proof.
  induction s as [|c s IH]; simpl; [reflexivity|].
  intros H. apply andb_true_iff in H as [Hc Hs].
  rewrite Hc. now apply IH.
Qed.

Lemma trim_allWhiteSpace (s : jstring) :
  Js.allWhiteSpace s = true -> Js.trim s = [].
Proof.
  intros H. unfold Js.trim. now rewrite trimStart_allWhiteSpace.
Qed.

Lemma trimEnd_empty (s : jstring) :
  Js.trimEnd s = [] -> Js.allWhiteSpace s = true.
Proof.
  induction s as [|c s IH]; simpl; [reflexivity|].
  destruct (Js.trimEnd s); [|discriminate].
  destruct (Js.isWhiteSpace c); [|discriminate].
  intros _. now apply IH.
Qed.

Lemma allWhiteSpace_trimStart (s : jstring) :
  Js.allWhiteSpace (Js.trimStart s) = Js.allWhiteSpace s.
Proof.
  induction s as [|c s IH]; simpl; [reflexivity|].
  destruct (Js.isWhiteSpace c) eqn:E; simpl; [exact IH | now rewrite E].
Qed.

(** [trim] leaves nothing exactly when the text is white space only. *)
Lemma trim_empty_allWhiteSpace (s : jstring) :
  Js.trim s = [] -> Js.allWhiteSpace s = true.
Proof.
  unfold Js.trim. intros H. apply trimEnd_empty in H.
  now rewrite allWhiteSpace_trimStart in H.
Qed.

Lemma lineCount_positive (text : jstring) :
  exists n, Doc.lineCount text = S n.
Proof.
  induction text as [|c text [n IH]]; simpl.
  - now exists 0.
  - destruct (N.eqb c Doc.LF); [now exists (Doc.lineCount text) | now exists n].
Qed.

(** A line at or beyond [lineCount] is clamped to the end of the text. *)
Lemma offsetAt_beyond (text : jstring) (extra ch : nat) :
  Doc.offsetAt text (Doc.lineCount text + extra) ch = List.length text.
Proof.
  induction text as [|c text IH]; simpl; [reflexivity|].
  destruct (N.eqb c Doc.LF); simpl.
  - now rewrite IH.
  - destruct (lineCount_positive text) as [n Hn].
    rewrite Hn in IH |- *. simpl in IH |- *. now rewrite IH.
Qed.

Lemma offsetAt_origin (text : jstring) : Doc.offsetAt text 0 0 = 0.
Proof. destruct text as [|c text]; simpl; [reflexivity|]. now destruct (N.eqb c Doc.LF). Qed.


(** ... and replacing it leaves exactly the new text. *)
Lemma replace_wholeRange (text newText : jstring) :
  Doc.replace text (Doc.wholeRange text) newText = newText.
Proof.
  unfold Doc.replace, Doc.wholeRange, Doc.offsetOf; simpl.
  rewrite offsetAt_origin.
  rewrite <- (Nat.add_0_r (Doc.lineCount text)), offsetAt_beyond.
  simpl. rewrite skipn_all. apply app_nil_r.
Qed.

(* ================================================================== *)
(** ** Diagnostic collector *)
(* ================================================================== *)

(** C9: the collector returns, for the diagnostics known for the document,
    one string per diagnostic, in the same order (nothing dropped, merged
    or reordered, so the two lists have the same length), each of the form
    [Line <n>: <message> (<severity>)] with [n] the one-based start line;
    it touches nothing in the host. *)
Theorem C9_getProblemsForFile_one_line_each (h : Host) (w : World) :
  exists out,
    getProblemsForFile h w = (Returned out, w)
    /\ List.length out = List.length (diagnostics h)
    /\ Forall2
         (fun d s =>
            s = lit "Line " ++ Js.showNat (S (Doc.line (Doc.start (diag_range d))))
                  ++ lit ": " ++ diag_message d
                  ++ lit " (" ++ severityName (diag_severity d) ++ lit ")")
         (diagnostics h) out.
Proof.
  exists (map formatDiagnostic (diagnostics h)).
  split; [reflexivity|]. split; [apply length_map|].
  induction (diagnostics h) as [|d ds IH]; simpl; constructor; [|exact IH].
  unfold formatDiagnostic. now rewrite Nat.add_1_r.
Qed.

(* ================================================================== *)
(** ** The checks before the request *)
(* ================================================================== *)

Lemma fixCode_accepted h selectionOnly w editor codeToFix rangeToReplace :
  Accepted h selectionOnly w editor codeToFix rangeToReplace ->
  fixCode h selectionOnly w
  = tryCatch (fixCodeTask h editor codeToFix rangeToReplace) handleError w.
Proof.
  intros (He & Hl & Ht & Hc). unfold fixCode.
  rewrite He, Hl. simpl. unfold bind, readDocument.
  rewrite Ht, Hc. reflexivity.
Qed.

(** Every invocation is either accepted or turned down with exactly one
    message and nothing else. *)
Lemma fixCode_validation h selectionOnly w :
  (exists editor codeToFix rangeToReplace,
      Accepted h selectionOnly w editor codeToFix rangeToReplace)
  \/ ((forall editor c rg, ~ Accepted h selectionOnly w editor c rg)
      /\ exists m, In m (rejections h)
                   /\ fixCode h selectionOnly w = (Returned tt, pushMessage m w)).
Proof.
  unfold fixCode, Accepted, rejections.
  destruct (activeTextEditor h) as [editor|] eqn:He.
  2:{ right. split; [intros ? ? ? (H & _); discriminate|].
      eexists. split; [left; reflexivity | reflexivity]. }
  destruct (isSupportedLanguage (languageId editor)) eqn:Hl; simpl.
  2:{ right. split; [intros ? ? ? (H1 & H2 & _); congruence|].
      eexists. split; [do 3 right; left; reflexivity | reflexivity]. }
  unfold bind, readDocument.
  destruct (chooseTarget selectionOnly editor (document w)) as [[c rg]|] eqn:Ht.
  2:{ right. split; [intros ? ? ? (H1 & _ & H3 & _); congruence|].
      eexists. split; [right; left; reflexivity | reflexivity]. }
  destruct (Js.truthy (Js.trim c)) eqn:Hc; simpl.
  - left. exists editor, c, rg. auto.
  - right. split; [intros ? ? ? (H1 & _ & H3 & H4); congruence|].
    eexists. split; [do 2 right; left; reflexivity | reflexivity].
Qed.

Lemma rejections_not_information h m :
  In m (rejections h) -> msg_severity m <> SevInformation.
Proof.
  unfold rejections. intros [<-|[<-|[<-|H]]]; try discriminate.
  destruct (activeTextEditor h); simpl in H; [|contradiction].
  destruct H as [<-|[]]. discriminate.
Qed.


(* ================================================================== *)
(** ** Reading the world after a host call *)
(* ================================================================== *)

Create Rewrite HintDb world.

Lemma document_pushMessage m w : document (pushMessage m w) = document w.
Proof. reflexivity. Qed.

Lemma messages_pushMessage m w : messages (pushMessage m w) = (messages w ++ [m])%list.
Proof. reflexivity. Qed.

Lemma requests_pushMessage m w : requests (pushMessage m w) = requests w.
Proof. reflexivity. Qed.

Lemma edits_pushMessage m w : edits (pushMessage m w) = edits w.
Proof. reflexivity. Qed.

Lemma diffs_pushMessage m w : diffs (pushMessage m w) = diffs w.
Proof. reflexivity. Qed.

Lemma progress_pushMessage m w : progress (pushMessage m w) = progress w.
Proof. reflexivity. Qed.

Lemma console_pushMessage m w : console (pushMessage m w) = console w.
Proof. reflexivity. Qed.

Lemma document_pushProgress i t w : document (pushProgress i t w) = document w.
Proof. reflexivity. Qed.

Lemma messages_pushProgress i t w : messages (pushProgress i t w) = messages w.
Proof. reflexivity. Qed.

Lemma requests_pushProgress i t w : requests (pushProgress i t w) = requests w.
Proof. reflexivity. Qed.

Lemma edits_pushProgress i t w : edits (pushProgress i t w) = edits w.
Proof. reflexivity. Qed.

Lemma diffs_pushProgress i t w : diffs (pushProgress i t w) = diffs w.
Proof. reflexivity. Qed.

Lemma progress_pushProgress i t w : progress (pushProgress i t w) = (progress w ++ [(i, t)])%list.
Proof. reflexivity. Qed.

Lemma console_pushProgress i t w : console (pushProgress i t w) = console w.
Proof. reflexivity. Qed.

Lemma document_pushConsole e w : document (pushConsole e w) = document w.
Proof. reflexivity. Qed.

Lemma messages_pushConsole e w : messages (pushConsole e w) = messages w.
Proof. reflexivity. Qed.

Lemma requests_pushConsole e w : requests (pushConsole e w) = requests w.
Proof. reflexivity. Qed.

Lemma edits_pushConsole e w : edits (pushConsole e w) = edits w.
Proof. reflexivity. Qed.

Lemma diffs_pushConsole e w : diffs (pushConsole e w) = diffs w.
Proof. reflexivity. Qed.

Lemma progress_pushConsole e w : progress (pushConsole e w) = progress w.
Proof. reflexivity. Qed.

Lemma console_pushConsole e w : console (pushConsole e w) = (console w ++ [e])%list.
Proof. reflexivity. Qed.

Lemma document_pushDiff a b t w : document (pushDiff a b t w) = document w.
Proof. reflexivity. Qed.

Lemma messages_pushDiff a b t w : messages (pushDiff a b t w) = messages w.
Proof. reflexivity. Qed.

Lemma requests_pushDiff a b t w : requests (pushDiff a b t w) = requests w.
Proof. reflexivity. Qed.

Lemma edits_pushDiff a b t w : edits (pushDiff a b t w) = edits w.
Proof. reflexivity. Qed.

Lemma diffs_pushDiff a b t w : diffs (pushDiff a b t w) = (diffs w ++ [(a, b, t)])%list.
Proof. reflexivity. Qed.

Lemma progress_pushDiff a b t w : progress (pushDiff a b t w) = progress w.
Proof. reflexivity. Qed.

Lemma console_pushDiff a b t w : console (pushDiff a b t w) = console w.
Proof. reflexivity. Qed.

Lemma document_pushRequest typed rq w : document (pushRequest typed rq w) = get typed (document w).
Proof. reflexivity. Qed.

Lemma messages_pushRequest typed rq w : messages (pushRequest typed rq w) = messages w.
Proof. reflexivity. Qed.

Lemma requests_pushRequest typed rq w : requests (pushRequest typed rq w) = (requests w ++ [rq])%list.
Proof. reflexivity. Qed.

Lemma edits_pushRequest typed rq w : edits (pushRequest typed rq w) = edits w.
Proof. reflexivity. Qed.

Lemma diffs_pushRequest typed rq w : diffs (pushRequest typed rq w) = diffs w.
Proof. reflexivity. Qed.

Lemma progress_pushRequest typed rq w : progress (pushRequest typed rq w) = progress w.
Proof. reflexivity. Qed.

Lemma console_pushRequest typed rq w : console (pushRequest typed rq w) = console w.
Proof. reflexivity. Qed.

Lemma document_pushEdit a r t w :
  document (pushEdit a r t w)
  = if a then Doc.replace (document w) r t else document w.
Proof. reflexivity. Qed.

Lemma messages_pushEdit a r t w : messages (pushEdit a r t w) = messages w.
Proof. reflexivity. Qed.

Lemma requests_pushEdit a r t w : requests (pushEdit a r t w) = requests w.
Proof. reflexivity. Qed.

Lemma edits_pushEdit a r t w : edits (pushEdit a r t w) = (edits w ++ [(r, t)])%list.
Proof. reflexivity. Qed.

Lemma diffs_pushEdit a r t w : diffs (pushEdit a r t w) = diffs w.
Proof. reflexivity. Qed.

Lemma progress_pushEdit a r t w : progress (pushEdit a r t w) = progress w.
Proof. reflexivity. Qed.

Lemma console_pushEdit a r t w : console (pushEdit a r t w) = console w.
Proof. reflexivity. Qed.

Lemma document_logged h e w : document (logged h e w) = document w.
Proof. unfold logged. now destruct (get (enableLogging (configuration h)) false). Qed.

Lemma messages_logged h e w : messages (logged h e w) = messages w.
Proof. unfold logged. now destruct (get (enableLogging (configuration h)) false). Qed.

Lemma requests_logged h e w : requests (logged h e w) = requests w.
Proof. unfold logged. now destruct (get (enableLogging (configuration h)) false). Qed.

Lemma edits_logged h e w : edits (logged h e w) = edits w.
Proof. unfold logged. now destruct (get (enableLogging (configuration h)) false). Qed.

Lemma diffs_logged h e w : diffs (logged h e w) = diffs w.
Proof. unfold logged. now destruct (get (enableLogging (configuration h)) false). Qed.

Lemma progress_logged h e w : progress (logged h e w) = progress w.
Proof. unfold logged. now destruct (get (enableLogging (configuration h)) false). Qed.

#[global] Hint Rewrite
  document_pushMessage messages_pushMessage requests_pushMessage edits_pushMessage
  diffs_pushMessage progress_pushMessage console_pushMessage document_pushProgress
  messages_pushProgress requests_pushProgress edits_pushProgress diffs_pushProgress
  progress_pushProgress console_pushProgress document_pushConsole messages_pushConsole
  requests_pushConsole edits_pushConsole diffs_pushConsole progress_pushConsole
  console_pushConsole document_pushDiff messages_pushDiff requests_pushDiff
  edits_pushDiff diffs_pushDiff progress_pushDiff console_pushDiff
  document_pushRequest messages_pushRequest requests_pushRequest edits_pushRequest
  diffs_pushRequest progress_pushRequest console_pushRequest document_pushEdit
  messages_pushEdit requests_pushEdit edits_pushEdit diffs_pushEdit
  progress_pushEdit console_pushEdit document_logged messages_logged
  requests_logged edits_logged diffs_logged progress_logged
  : world.

Ltac world_simpl :=
  unfold atStage, atReply, afterPost, started, applied, diffShown, asked,
    NoEditApplied, textAtResponse in *;
  autorewrite with world in *.

(* ================================================================== *)
(** ** Remote fix client *)
(* ================================================================== *)

Ltac unfold_calls :=
  unfold showInformationMessage, showWarningMessage, showErrorMessage, prompt,
    showMessage, axiosPost, editReplace, executeDiff, consoleWrite, report,
    readDocument, when, tryCatch, bind, ret, throw in *.

Lemma sendCodeToAI_unconfigured h p w :
  Js.truthyOpt (n8nWebhookUrl (configuration h)) = false ->
  sendCodeToAI h p w = (Threw (ThrownError (newError configErrorMessage)), w).
Proof.
  unfold sendCodeToAI, Js.truthyOpt.
  destruct (n8nWebhookUrl (configuration h)) as [url|]; [|reflexivity].
  now intros ->.
Qed.

Lemma sendCodeToAI_rejected h url p e w :
  Settles h url p (inl e) ->
  sendCodeToAI h p w = (Threw (rethrow url (timeoutOf h) e), afterPost h url p w).
Proof.
  intros (Hu & Ht & Ho). unfold sendCodeToAI, afterPost, logged, timeoutOf in *.
  rewrite Hu, Ht. unfold_calls.
  destruct (get (enableLogging (configuration h)) false); simpl; now rewrite Ho.
Qed.

Lemma sendCodeToAI_resolved h url p b w :
  Settles h url p (inr b) ->
  sendCodeToAI h p w
  = (Returned b, logged h (LogResponse b) (afterPost h url p w)).
Proof.
  intros (Hu & Ht & Ho). unfold sendCodeToAI, afterPost, logged, timeoutOf in *.
  rewrite Hu, Ht. unfold_calls.
  destruct (get (enableLogging (configuration h)) false); simpl; now rewrite Ho.
Qed.

(** The client either is not configured, or its one POST settles. *)
Lemma sendCodeToAI_settles h p :
  Js.truthyOpt (n8nWebhookUrl (configuration h)) = false
  \/ exists url result, Settles h url p result.
Proof.
  unfold Settles, Js.truthyOpt.
  destruct (n8nWebhookUrl (configuration h)) as [url|]; [|now left].
  destruct (Js.truthy url) eqn:E; [|now left].
  right. exists url. eexists. repeat split. exact E.
Qed.

(* ================================================================== *)
(** ** Diff/apply flow *)
(* ================================================================== *)

Section DiffApply.

Variables (h : Host) (originalCode fixed : jstring)
          (explanation : option jstring) (range : Doc.Range) (w : World).

Lemma showDiffAndApply_dismissed :
  firstAnswer h = None ->
  showDiffAndApply h originalCode fixed explanation range w
  = (Returned tt, asked explanation w).
Proof. unfold showDiffAndApply. unfold_calls. now intros ->. Qed.


Lemma showDiffAndApply_cancel :
  firstAnswer h = Some (lit "Cancel") ->
  showDiffAndApply h originalCode fixed explanation range w
  = (Returned tt, pushMessage cancelledNotice (asked explanation w)).
Proof. unfold showDiffAndApply. unfold_calls. now intros ->. Qed.


Lemma showDiffAndApply_diff_other :
  firstAnswer h = Some (lit "Show Diff") -> secondAnswer h <> Some (lit "Apply") ->
  showDiffAndApply h originalCode fixed explanation range w
  = (Returned tt, diffShown originalCode fixed explanation w).
Proof.
  unfold showDiffAndApply, showDiffDocument. unfold_calls. intros -> H. simpl.
  destruct (secondAnswer h) as [b|]; [|reflexivity].
  destruct (Js.eqb b (lit "Apply")) eqn:E; [|reflexivity].
  apply jstring_eqb_eq in E. now subst b.
Qed.

(** Whatever is answered at the prompts, the flow returns, shows only
    informational messages, and either edits nothing or replaces
    [range] by [fixed] once. *)
Lemma showDiffAndApply_frame :
  exists w', showDiffAndApply h originalCode fixed explanation range w
             = (Returned tt, w')
    /\ requests w' = requests w /\ progress w' = progress w
    /\ (exists shown, messages w' = (messages w ++ shown)%list
          /\ Forall (fun m => msg_severity m = SevInformation) shown)
    /\ ((edits w' = edits w /\ document w' = document w)
        \/ (edits w' = (edits w ++ [(range, fixed)])%list
            /\ document w'
               = if editApplied h
                 then Doc.replace (document w) range fixed
                 else document w)).
Proof.
  unfold showDiffAndApply, showDiffDocument, applyFixedCode, showSuccessMessage.
  unfold_calls. simpl.
  destruct (firstAnswer h) as [a|];
    [destruct (Js.eqb a (lit "Apply Changes"));
     [|destruct (Js.eqb a (lit "Show Diff"));
       [destruct (secondAnswer h) as [b|];
        [destruct (Js.eqb b (lit "Apply"))|]
       |destruct (Js.eqb a (lit "Cancel"))]]|];
    simpl; eexists; (split; [reflexivity|]); simpl;
    repeat split;
    try (eexists; split;
         [rewrite <- ?app_assoc; reflexivity | repeat constructor]);
    auto.
Qed.

End DiffApply.

(* ================================================================== *)
(** ** The task under the progress indicator *)
(* ================================================================== *)

Section Task.

Variables (h : Host) (editor : Editor) (codeToFix : jstring)
          (rangeToReplace : Doc.Range) (w : World).

Lemma fixCodeTask_unconfigured :
  Js.truthyOpt (n8nWebhookUrl (configuration h)) = false ->
  fixCodeTask h editor codeToFix rangeToReplace w
  = (Threw (ThrownError (newError configErrorMessage)), started w).
Proof.
  intros H. unfold fixCodeTask, getProblemsForFile, report, bind, ret.
  now rewrite (sendCodeToAI_unconfigured _ _ _ H).
Qed.

Lemma fixCodeTask_rejected url e :
  Settles h url (payloadFor h editor codeToFix) (inl e) ->
  fixCodeTask h editor codeToFix rangeToReplace w
  = (Threw (rethrow url (timeoutOf h) e),
     afterPost h url (payloadFor h editor codeToFix) (started w)).
Proof.
  intros H. unfold fixCodeTask, getProblemsForFile, report, bind, ret.
  now rewrite (sendCodeToAI_rejected _ _ _ _ _ H).
Qed.

(** Reading [fixedCode] off a [null] body throws. *)
Lemma fixCodeTask_null url :
  Settles h url (payloadFor h editor codeToFix) (inr BodyNull) ->
  fixCodeTask h editor codeToFix rangeToReplace w
  = (Threw (ThrownError (newError nullBodyMessage)),
     atReply h url (payloadFor h editor codeToFix) BodyNull w).
Proof.
  intros H. unfold fixCodeTask, getProblemsForFile, report, bind, ret.
  now rewrite (sendCodeToAI_resolved _ _ _ _ _ H).
Qed.

Lemma fixCodeTask_invalid url r :
  Settles h url (payloadFor h editor codeToFix) (inr (BodyObject r)) ->
  Js.truthyOpt (fixedCode r) = false ->
  fixCodeTask h editor codeToFix rangeToReplace w
  = (Threw (ThrownError (newError invalidResponseMessage)),
     atReply h url (payloadFor h editor codeToFix) (BodyObject r) w).
Proof.
  intros H Hf. unfold fixCodeTask, getProblemsForFile, report, bind, ret.
  rewrite (sendCodeToAI_resolved _ _ _ _ _ H).
  unfold Js.truthyOpt in Hf.
  destruct (fixedCode r) as [f|]; [rewrite Hf|]; reflexivity.
Qed.

(** With a non-empty [fixedCode] the task enters the apply stage. *)
Lemma fixCodeTask_valid url r fixed :
  Settles h url (payloadFor h editor codeToFix) (inr (BodyObject r)) ->
  fixedCode r = Some fixed -> Js.truthy fixed = true ->
  fixCodeTask h editor codeToFix rangeToReplace w
  = ((if get (showDiffPreview (configuration h)) true then
        showDiffAndApply h codeToFix fixed (explanation r) rangeToReplace
      else
        applyFixedCode h fixed rangeToReplace ;;;
        showSuccessMessage (explanation r)) ;;;
     report 100 (lit "Complete!"))
      (atStage h url (payloadFor h editor codeToFix) r w).
Proof.
  intros H Hf Ht. unfold fixCodeTask, getProblemsForFile, report, bind, ret.
  rewrite (sendCodeToAI_resolved _ _ _ _ _ H), Hf, Ht. reflexivity.
Qed.

Lemma fixCodeTask_ends :
  TaskEnd h editor codeToFix rangeToReplace w
          (fst (fixCodeTask h editor codeToFix rangeToReplace w))
          (snd (fixCodeTask h editor codeToFix rangeToReplace w)).
Proof.
  destruct (sendCodeToAI_settles h (payloadFor h editor codeToFix))
    as [Hu|(url & [e|[|r]] & Hs)].
  - rewrite (fixCodeTask_unconfigured Hu). now constructor.
  - rewrite (fixCodeTask_rejected _ _ Hs). now constructor.
  - rewrite (fixCodeTask_null _ Hs). now constructor.
  - destruct (Js.truthyOpt (fixedCode r)) eqn:Hf.
    2:{ rewrite (fixCodeTask_invalid _ _ Hs Hf). now constructor. }
    unfold Js.truthyOpt in Hf.
    destruct (fixedCode r) as [fixed|] eqn:Hr; [|discriminate].
    rewrite (fixCodeTask_valid _ _ _ Hs Hr Hf).
    destruct (get (showDiffPreview (configuration h)) true).
    + destruct (showDiffAndApply_frame h codeToFix fixed (explanation r)
                  rangeToReplace (atStage h url (payloadFor h editor codeToFix) r w))
        as (w' & Hrun & Hreq & Hpro & Hmsg & Hed).
      rewrite (bind_returned _ _ _ _ _ Hrun). unfold report. cbn [fst snd].
      eapply EndStage; eauto.
    + unfold applyFixedCode, showSuccessMessage. unfold_calls. cbn [fst snd].
      eapply (EndStage _ _ _ _ _ url r fixed _
                (applied h fixed (explanation r) rangeToReplace
                         (atStage h url (payloadFor h editor codeToFix) r w))); eauto.
      eexists. split; [reflexivity|]. repeat constructor.
Qed.

End Task.

(* ================================================================== *)
(** ** The command handler *)
(* ================================================================== *)

Lemma handleError_shows e w :
  handleError e w
  = (Returned tt,
     pushMessage
       (errorNotice match e with
                    | ThrownError o => err_message o
                    | ThrownOther _ _ => genericMessage
                    end)
       (pushConsole (LogError e) w)).
Proof. reflexivity. Qed.

(** An accepted invocation runs the task and reports what it throws. *)
Lemma fixCode_threw h selectionOnly w editor c rg e w1 :
  Accepted h selectionOnly w editor c rg ->
  fixCodeTask h editor c rg w = (Threw e, w1) ->
  fixCode h selectionOnly w = handleError e w1.
Proof.
  intros Ha Ht. rewrite (fixCode_accepted _ _ _ _ _ _ Ha).
  now apply tryCatch_threw.
Qed.

Lemma fixCode_returned h selectionOnly w editor c rg w1 :
  Accepted h selectionOnly w editor c rg ->
  fixCodeTask h editor c rg w = (Returned tt, w1) ->
  fixCode h selectionOnly w = (Returned tt, w1).
Proof.
  intros Ha Ht. rewrite (fixCode_accepted _ _ _ _ _ _ Ha).
  now apply tryCatch_returned.
Qed.

(** A task that throws has shown nothing and edited nothing. *)
Lemma TaskEnd_threw h editor c rg w e w1 :
  TaskEnd h editor c rg w (Threw e) w1 ->
  messages w1 = messages w /\ NoEditApplied h w w1
  /\ (exists sent, requests w1 = (requests w ++ sent)%list /\ List.length sent <= 1).
Proof.
  intros H. inversion H; subst; clear H; world_simpl.
  - repeat split; try (left; reflexivity).
    exists []. rewrite app_nil_r. split; [reflexivity | simpl; lia].
  - split; [reflexivity|].
    split; [split; [reflexivity | right; reflexivity]|].
    eexists; split; [reflexivity | simpl; lia].
  - split; [reflexivity|].
    split; [split; [reflexivity | right; reflexivity]|].
    eexists; split; [reflexivity | simpl; lia].
  - split; [reflexivity|].
    split; [split; [reflexivity | right; reflexivity]|].
    eexists; split; [reflexivity | simpl; lia].
Qed.


Lemma Accepted_inputText h selectionOnly w editor c rg :
  Accepted h selectionOnly w editor c rg ->
  c = inputText selectionOnly editor (document w).
Proof.
  intros (_ & _ & Ht & _). unfold chooseTarget, inputText in *.
  destruct selectionOnly; simpl in Ht.
  - destruct (Doc.isEmpty (selection editor)); simpl in Ht; [discriminate|].
    now inversion Ht.
  - now inversion Ht.
Qed.



Lemma Contains_refl (s : jstring) : Js.Contains s s.
Proof. exists [], []. simpl. now rewrite app_nil_r. Qed.

Lemma Contains_prepend (p t s : jstring) :
  Js.Contains t s -> Js.Contains (p ++ t) s.
Proof.
  intros (pre & post & ->). exists (p ++ pre), post. now rewrite <- app_assoc.
Qed.

Lemma Contains_append (t q s : jstring) :
  Js.Contains t s -> Js.Contains (t ++ q) s.
Proof.
  intros (pre & post & ->). exists pre, (post ++ q).
  now rewrite <- !app_assoc.
Qed.

(** C3: with an active editor, a language identifier outside the allow-list
    is turned down with one warning that names the supported set, and an
    input text that is empty or white space only (the selection under
    selection scope, the document under whole-file scope) is turned down
    with one warning or error message; in both cases nothing else happens,
    so no request is issued. *)
Theorem C3_unsupported_language_or_blank_input_sends_nothing
    (h : Host) (selectionOnly : bool) (w : World) (editor : Editor) :
  activeTextEditor h = Some editor ->
  (~ In (languageId editor)
        [lit "javascript"; lit "typescript"; lit "python"; lit "java"; lit "cpp"; lit "c";
          lit "go"; lit "php"; lit "csharp"; lit "ruby"; lit "swift"; lit "kotlin" ] ->
   fixCode h selectionOnly w
   = (Returned tt,
      pushMessage (notice SevWarning (unsupportedMessage (languageId editor))) w)
   /\ Js.Contains (unsupportedMessage (languageId editor))
        (lit "javascript, typescript, python, java, cpp, c, go, php, csharp, ruby, swift, kotlin")
   /\ requests (snd (fixCode h selectionOnly w)) = requests w)
  /\ (Js.allWhiteSpace (inputText selectionOnly editor (document w)) = true ->
      exists m,
        In m (rejections h) /\ msg_severity m <> SevInformation
        /\ fixCode h selectionOnly w = (Returned tt, pushMessage m w)
        /\ requests (snd (fixCode h selectionOnly w)) = requests w).
Proof.
  intros He. split.
  - intros Hl. apply includes_not_In in Hl.
    assert (Hrun : fixCode h selectionOnly w
                   = (Returned tt,
                      pushMessage
                        (notice SevWarning (unsupportedMessage (languageId editor))) w)).
    { unfold fixCode. rewrite He. unfold isSupportedLanguage, getSupportedLanguages.
      now rewrite Hl. }
    split; [exact Hrun|]. split; [|now rewrite Hrun].
    unfold unsupportedMessage. do 5 apply Contains_prepend. apply Contains_refl.
  - intros Hblank.
    destruct (fixCode_validation h selectionOnly w)
      as [(editor' & c & rg & Ha)|(_ & m & Hm & Hrun)].
    + exfalso. pose proof (Accepted_inputText _ _ _ _ _ _ Ha) as Hc.
      destruct Ha as (He' & _ & _ & Ht).
      rewrite He in He'. inversion He'; subst editor'. subst c.
      rewrite (trim_allWhiteSpace _ Hblank) in Ht. discriminate.
    + exists m. split; [exact Hm|].
      split; [now apply (rejections_not_information h)|].
      split; [exact Hrun | now rewrite Hrun].
Qed.


Lemma optString_eqb_true o s : optString_eqb o s = true <-> o = Some s.
Proof.
  destruct o as [t|]; simpl; [|split; discriminate].
  rewrite jstring_eqb_eq. split; [now intros -> | now intros [= ->]].
Qed.

Lemma optString_eqb_false o s : o <> Some s -> optString_eqb o s = false.
Proof.
  intros H. destruct (optString_eqb o s) eqn:E; [|reflexivity].
  now apply optString_eqb_true in E.
Qed.

Lemma optZ_eqb_true o z : optZ_eqb o z = true <-> o = Some z.
Proof.
  destruct o as [y|]; simpl; [|split; discriminate].
  rewrite Z.eqb_eq. split; [now intros -> | now intros [= ->]].
Qed.

Lemma optZ_eqb_false o z : o <> Some z -> optZ_eqb o z = false.
Proof.
  intros H. destruct (optZ_eqb o z) eqn:E; [|reflexivity].
  now apply optZ_eqb_true in E.
Qed.

(** C5: the client issues its POST once and maps the [Error] the transport
    rejects with: the code ECONNREFUSED (connection refused) gives the
    service-unavailable error, whose message holds the endpoint URL; a
    response status 404 gives the endpoint-not-found error; the code
    ECONNABORTED (the configured timeout ran out) gives the timeout error,
    whose message holds the configured timeout; any other error is thrown
    on unchanged, so with its own message.  The three mapped messages are
    pairwise different.  (An error that carries a response has neither of
    the two codes, and one with either code carries no response.) *)
Theorem C5_transport_failures_are_mapped_once
    (h : Host) (url : jstring) (p : CodeFixPayload) (w : World) (e : ErrorObject) :
  Settles h url p (inl (ThrownError e)) ->
  requests (snd (sendCodeToAI h p w))
  = (requests w ++ [mkRequest url p (timeoutOf h)])%list
  /\ (err_code e = Some (lit "ECONNREFUSED") ->
      fst (sendCodeToAI h p w)
      = Threw (ThrownError (newError (serviceUnavailableMessage url)))
      /\ Js.Contains (serviceUnavailableMessage url) url)
  /\ (err_status e = Some 404%Z -> err_code e <> Some (lit "ECONNREFUSED") ->
      fst (sendCodeToAI h p w)
      = Threw (ThrownError (newError endpointNotFoundMessage)))
  /\ (err_code e = Some (lit "ECONNABORTED") -> err_status e <> Some 404%Z ->
      fst (sendCodeToAI h p w)
      = Threw (ThrownError (newError (timeoutMessage (timeoutOf h))))
      /\ Js.Contains (timeoutMessage (timeoutOf h)) (numberText (timeoutOf h)))
  /\ (err_code e <> Some (lit "ECONNREFUSED") -> err_status e <> Some 404%Z ->
      err_code e <> Some (lit "ECONNABORTED") ->
      fst (sendCodeToAI h p w) = Threw (ThrownError e))
  /\ (serviceUnavailableMessage url <> endpointNotFoundMessage
      /\ serviceUnavailableMessage url <> timeoutMessage (timeoutOf h)
      /\ endpointNotFoundMessage <> timeoutMessage (timeoutOf h)).
Proof.
  intros Hs. rewrite (sendCodeToAI_rejected _ _ _ _ _ Hs). cbn [fst snd].
  split; [now world_simpl|]. unfold rethrow. cbn [codeOf statusOf].
  split; [|split; [|split; [|split]]].
  - intros Hc. apply optString_eqb_true in Hc. rewrite Hc.
    split; [reflexivity|].
    unfold serviceUnavailableMessage.
    apply Contains_prepend, Contains_append, Contains_refl.
  - intros Hst Hc. apply optZ_eqb_true in Hst.
    now rewrite (optString_eqb_false _ _ Hc), Hst.
  - intros Hc Hst.
    assert (Hr : err_code e <> Some (lit "ECONNREFUSED")) by (rewrite Hc; discriminate).
    rewrite (optString_eqb_false _ _ Hr), (optZ_eqb_false _ _ Hst).
    apply optString_eqb_true in Hc. rewrite Hc.
    split; [reflexivity|].
    unfold timeoutMessage.
    apply Contains_prepend, Contains_append, Contains_refl.
  - intros Hr Hst Ha.
    now rewrite (optString_eqb_false _ _ Hr), (optZ_eqb_false _ _ Hst),
      (optString_eqb_false _ _ Ha).
  - unfold serviceUnavailableMessage, endpointNotFoundMessage, timeoutMessage.
    simpl. repeat split; discriminate.
Qed.

Lemma truthy_nonempty (s : jstring) : Js.truthy s = true <-> s <> [].
Proof. destruct s; simpl; split; congruence. Qed.

(** The guard on [fixedCode], for a response body whose properties can be
    read: when the body has no [fixedCode] or an empty one, the task throws
    the invalid-response error right after the reply; the handler shows it
    as its one notification and applies no edit, and the task never enters
    the apply stage.  When [fixedCode] is non-empty the task goes through
    the apply stage to its end and nothing is reported as an error. *)
Lemma fixedCode_guard_on_readable_bodies
    (h : Host) (selectionOnly : bool) (w : World) (editor : Editor)
    (c : jstring) (rg : Doc.Range) (url : jstring) (r : CodeFixResponse) :
  Accepted h selectionOnly w editor c rg ->
  Settles h url (payloadFor h editor c) (inr (BodyObject r)) ->
  (fixedCode r = None \/ fixedCode r = Some [] ->
   fst (fixCodeTask h editor c rg w)
   = Threw (ThrownError (newError (lit "No fixed code received from AI")))
   /\ messages (snd (fixCode h selectionOnly w))
      = (messages w
           ++ [notice SevError
                 (lit "Self-Healing Assistant: No fixed code received from AI")])%list
   /\ NoEditApplied h w (snd (fixCode h selectionOnly w))
   /\ progress (snd (fixCode h selectionOnly w))
      = (progress w ++ [(0, lit "Analyzing code..."); (20, lit "Sending to AI...");
                        (70, lit "Processing response...")])%list)
  /\ (forall fixed,
        fixedCode r = Some fixed -> fixed <> [] ->
        fst (fixCodeTask h editor c rg w) = Returned tt
        /\ progress (snd (fixCode h selectionOnly w))
           = (progress w ++ [(0, lit "Analyzing code..."); (20, lit "Sending to AI...");
                             (70, lit "Processing response...");
                             (90, lit "Applying changes..."); (100, lit "Complete!")])%list
        /\ Forall (fun m => msg_severity m = SevInformation)
                  (skipn (List.length (messages w))
                         (messages (snd (fixCode h selectionOnly w))))).
Proof.
  intros Ha Hs. split.
  - intros Hf.
    assert (Hfalse : Js.truthyOpt (fixedCode r) = false)
      by (destruct Hf as [-> | ->]; reflexivity).
    pose proof (fixCodeTask_invalid h editor c rg w url r Hs Hfalse) as Ht.
    rewrite (fixCode_threw _ _ _ _ _ _ _ _ Ha Ht), Ht, handleError_shows.
    cbn [fst snd]. world_simpl. rewrite <- !app_assoc.
    repeat split. now right.
  - intros fixed Hf Hne. apply truthy_nonempty in Hne.
    pose proof (fixCodeTask_ends h editor c rg w) as Hend.
    destruct (fixCodeTask h editor c rg w) as [o w1] eqn:Ht. cbn [fst snd] in *.
    destruct Hs as (Hu & Htr & Ho).
    inversion Hend; subst; clear Hend.
    + exfalso. unfold Js.truthyOpt in *. rewrite Hu, Htr in *. discriminate.
    + exfalso. destruct H as (Hu' & _ & Ho').
      rewrite Hu in Hu'. inversion Hu'; subst. rewrite Ho in Ho'. discriminate.
    + exfalso. destruct H as (Hu' & _ & Ho').
      rewrite Hu in Hu'. inversion Hu'; subst. rewrite Ho in Ho'. discriminate.
    + exfalso. destruct H as (Hu' & _ & Ho').
      rewrite Hu in Hu'. inversion Hu'; subst. rewrite Ho in Ho'.
      inversion Ho'; subst. unfold Js.truthyOpt in *. rewrite Hf, Hne in *.
      discriminate.
    + rewrite (fixCode_returned _ _ _ _ _ _ _ Ha Ht).
      split; [reflexivity|]. cbn [snd].
      match goal with Hp : progress _ = progress _ |- _ => revert Hp end.
      match goal with
      | Hm : exists shown, _ |- _ => destruct Hm as (shown & Hm & Hinfo); revert Hm
      end.
      world_simpl. intros Hm Hp. rewrite Hp, Hm, <- !app_assoc.
      split; [reflexivity|].
      now rewrite skipn_app, skipn_all, Nat.sub_diag.
Qed.

(** The same guard on the body [null], which has no [fixedCode] either:
    reading the property throws before the guard is reached, so the error
    that is caught and shown is the engine's, not the invalid-response
    error; no edit is applied. *)
Lemma null_body_escapes_the_fixedCode_guard h selectionOnly w editor c rg url :
  Accepted h selectionOnly w editor c rg ->
  Settles h url (payloadFor h editor c) (inr BodyNull) ->
  fst (fixCodeTask h editor c rg w)
  = Threw (ThrownError (newError nullBodyMessage))
  /\ messages (snd (fixCode h selectionOnly w))
     = (messages w ++ [errorNotice nullBodyMessage])%list
  /\ NoEditApplied h w (snd (fixCode h selectionOnly w)).
Proof.
  intros Ha Hs.
  pose proof (fixCodeTask_null h editor c rg w url Hs) as Ht.
  rewrite (fixCode_threw _ _ _ _ _ _ _ _ Ha Ht), Ht, handleError_shows.
  cbn [fst snd]. world_simpl. repeat split. now right.
Qed.

(** C4 fails on the code: a response whose body is the JSON value [null]
    lacks the [fixedCode] field, yet the flow does not fail with the
    invalid-response error.  On the scenario of the specification with
    that body, the one notification carries the type error thrown by
    reading [result.fixedCode], not the text [No fixed code received from
    AI]; no edit is applied. *)
Theorem C4_null_body_is_not_an_invalid_response_error :
  messages (snd (fixCode Sample.nullBodyHost true Sample.typoWorld))
  = [notice SevError
       (lit "Self-Healing Assistant: Cannot read properties of null (reading 'fixedCode')")]
  /\ messages (snd (fixCode Sample.nullBodyHost true Sample.typoWorld))
     <> [notice SevError
           (lit "Self-Healing Assistant: No fixed code received from AI")]
  /\ edits (snd (fixCode Sample.nullBodyHost true Sample.typoWorld)) = []
  /\ document (snd (fixCode Sample.nullBodyHost true Sample.typoWorld))
     = lit "cosnole.log(1)".
Proof.
  destruct (null_body_escapes_the_fixedCode_guard
              Sample.nullBodyHost true Sample.typoWorld Sample.typoEditor
              (lit "cosnole.log(1)") (Sample.range 0 0 0 14) Sample.endpoint)
    as (_ & Hmsg & Hedits & Hdoc); [repeat split; reflexivity..|].
  split; [exact Hmsg|]. split; [|split].
  - rewrite Hmsg. intros Heq. vm_compute in Heq. discriminate Heq.
  - exact Hedits.
  - destruct Hdoc as [Hdoc|Hdoc]; exact Hdoc.
Qed.


(** An accepted invocation with a configured endpoint issues its POST. *)
Lemma fixCode_sends h selectionOnly w editor c rg url :
  Accepted h selectionOnly w editor c rg ->
  n8nWebhookUrl (configuration h) = Some url -> Js.truthy url = true ->
  requests (snd (fixCode h selectionOnly w))
  = (requests w ++ [mkRequest url (payloadFor h editor c) (timeoutOf h)])%list.
Proof.
  intros Ha Hu Ht.
  assert (Hurl : forall url' result,
             Settles h url' (payloadFor h editor c) result -> url' = url).
  { intros url' result (Hu' & _). rewrite Hu in Hu'. now inversion Hu'. }
  pose proof (fixCodeTask_ends h editor c rg w) as Hend.
  destruct (fixCodeTask h editor c rg w) as [[[]|e] w1] eqn:Hrun;
    cbn [fst snd] in Hend.
  - rewrite (fixCode_returned _ _ _ _ _ _ _ Ha Hrun). cbn [snd].
    inversion Hend; subst; clear Hend.
    match goal with Hs : Settles _ _ _ _ |- _ => apply Hurl in Hs; subst end.
    match goal with Hr : requests _ = requests _ |- _ => revert Hr end.
    world_simpl. now intros ->.
  - rewrite (fixCode_threw _ _ _ _ _ _ _ _ Ha Hrun), handleError_shows.
    cbn [snd]. inversion Hend; subst; clear Hend.
    + exfalso. unfold Js.truthyOpt in *. rewrite Hu, Ht in *. discriminate.
    + match goal with Hs : Settles _ _ _ _ |- _ => apply Hurl in Hs; subst end.
      now world_simpl.
    + match goal with Hs : Settles _ _ _ _ |- _ => apply Hurl in Hs; subst end.
      now world_simpl.
    + match goal with Hs : Settles _ _ _ _ |- _ => apply Hurl in Hs; subst end.
      now world_simpl.
Qed.



(** With the preview on, an accepted invocation whose reply holds a
    non-empty [fixedCode] runs the diff/apply flow and completes. *)
Lemma fixCode_preview h selectionOnly w editor c rg url r fixed :
  Accepted h selectionOnly w editor c rg ->
  Settles h url (payloadFor h editor c) (inr (BodyObject r)) ->
  fixedCode r = Some fixed -> Js.truthy fixed = true ->
  get (showDiffPreview (configuration h)) true = true ->
  fixCode h selectionOnly w
  = (Returned tt,
     pushProgress 100 (lit "Complete!")
       (snd (showDiffAndApply h c fixed (explanation r) rg
               (atStage h url (payloadFor h editor c) r w)))).
Proof.
  intros Ha Hs Hf Ht Hp.
  apply (fixCode_returned _ _ _ _ _ _ _ Ha).
  rewrite (fixCodeTask_valid _ _ _ _ _ _ _ _ Hs Hf Ht), Hp.
  destruct (showDiffAndApply_frame h c fixed (explanation r) rg
              (atStage h url (payloadFor h editor c) r w)) as (w' & Hrun & _).
  rewrite (bind_returned _ _ _ _ _ Hrun), Hrun. reflexivity.
Qed.

(** C8: with the diff preview enabled and Cancel picked at the first
    prompt, the diff/apply flow returns after the prompt and the
    cancellation notice, with no edit; no invocation of the handler edits
    the document; and an invocation that reaches the prompt completes with
    the prompt and the notice as its only messages and the text as the user
    left it. *)
Theorem C8_cancel_at_first_prompt_changes_nothing (h : Host) :
  get (showDiffPreview (configuration h)) true = true ->
  firstAnswer h = Some (lit "Cancel") ->
  (forall originalCode fixed explained range w,
      showDiffAndApply h originalCode fixed explained range w
      = (Returned tt,
         pushMessage (notice SevInformation (lit "Code fix cancelled."))
                     (pushMessage (firstPrompt explained) w)))
  /\ (forall selectionOnly w,
        NoEditApplied h w (snd (fixCode h selectionOnly w)))
  /\ (forall selectionOnly w editor c rg url r fixed,
        Accepted h selectionOnly w editor c rg ->
        Settles h url (payloadFor h editor c) (inr (BodyObject r)) ->
        fixedCode r = Some fixed -> fixed <> [] ->
        fst (fixCode h selectionOnly w) = Returned tt
        /\ messages (snd (fixCode h selectionOnly w))
           = (messages w ++ [firstPrompt (explanation r);
                             notice SevInformation (lit "Code fix cancelled.")])%list
        /\ edits (snd (fixCode h selectionOnly w)) = edits w
        /\ document (snd (fixCode h selectionOnly w)) = textAtResponse h w
        /\ In (100, lit "Complete!") (progress (snd (fixCode h selectionOnly w)))).
Proof.
  intros Hp Hc.
  assert (Hstage : forall selectionOnly w editor c rg url r fixed,
             Accepted h selectionOnly w editor c rg ->
             Settles h url (payloadFor h editor c) (inr (BodyObject r)) ->
             fixedCode r = Some fixed -> Js.truthy fixed = true ->
             fixCode h selectionOnly w
             = (Returned tt,
                pushProgress 100 (lit "Complete!")
                  (pushMessage cancelledNotice
                     (asked (explanation r)
                        (atStage h url (payloadFor h editor c) r w))))).
  { intros selectionOnly w editor c rg url r fixed Ha Hs Hf Ht.
    rewrite (fixCode_preview _ _ _ _ _ _ _ _ _ Ha Hs Hf Ht Hp).
    now rewrite (showDiffAndApply_cancel _ _ _ _ _ _ Hc). }
  split; [|split].
  - intros. now apply showDiffAndApply_cancel.
  - intros selectionOnly w.
    destruct (fixCode_validation h selectionOnly w)
      as [(editor & c & rg & Ha)|(_ & m & _ & Hrun)].
    2:{ rewrite Hrun. cbn [snd]. world_simpl. split; [reflexivity | now left]. }
    pose proof (fixCodeTask_ends h editor c rg w) as Hend.
    destruct (fixCodeTask h editor c rg w) as [[[]|e] w1] eqn:Ht;
      cbn [fst snd] in Hend.
    + inversion Hend; subst; clear Hend.
      erewrite Hstage by eassumption. cbn [snd]. world_simpl.
      split; [reflexivity | now right].
    + rewrite (fixCode_threw _ _ _ _ _ _ _ _ Ha Ht), handleError_shows.
      cbn [snd]. destruct (TaskEnd_threw _ _ _ _ _ _ _ Hend) as (_ & Hno & _).
      world_simpl. exact Hno.
  - intros selectionOnly w editor c rg url r fixed Ha Hs Hf Hne.
    apply truthy_nonempty in Hne.
    rewrite (Hstage _ _ _ _ _ _ _ _ Ha Hs Hf Hne). cbn [fst snd]. world_simpl.
    rewrite <- app_assoc. repeat split.
    apply in_or_app. right. now left.
Qed.

(** C10: a prompt of the diff/apply flow that is dismissed without a choice
    ends the flow with nothing applied and nothing announced.  Dismissing
    the first prompt leaves only that prompt on the message log; after
    Show Diff, every answer to the second prompt other than Apply (a
    dismissal included) leaves only the two prompts there; in each case the
    flow returns, the edit log and the text are unchanged, and neither the
    success nor the cancellation notice is shown. *)
Theorem C10_prompt_without_apply_edits_nothing
    (h : Host) (originalCode fixed : jstring) (explained : option jstring)
    (range : Doc.Range) (w : World) :
  (firstAnswer h = None ->
   fst (showDiffAndApply h originalCode fixed explained range w) = Returned tt
   /\ messages (snd (showDiffAndApply h originalCode fixed explained range w))
      = (messages w ++ [firstPrompt explained])%list
   /\ edits (snd (showDiffAndApply h originalCode fixed explained range w))
      = edits w
   /\ document (snd (showDiffAndApply h originalCode fixed explained range w))
      = document w)
  /\ (firstAnswer h = Some (lit "Show Diff") -> secondAnswer h <> Some (lit "Apply") ->
      fst (showDiffAndApply h originalCode fixed explained range w) = Returned tt
      /\ messages (snd (showDiffAndApply h originalCode fixed explained range w))
         = (messages w ++ [firstPrompt explained; secondPrompt])%list
      /\ edits (snd (showDiffAndApply h originalCode fixed explained range w))
         = edits w
      /\ document (snd (showDiffAndApply h originalCode fixed explained range w))
         = document w).
Proof.
  split.
  - intros H1. rewrite (showDiffAndApply_dismissed _ _ _ _ _ _ H1).
    cbn [fst snd]. world_simpl. repeat split.
  - intros H1 H2. rewrite (showDiffAndApply_diff_other _ _ _ _ _ _ H1 H2).
    cbn [fst snd]. world_simpl. rewrite <- app_assoc. repeat split.
Qed.

(* ================================================================== *)
(** ** The statements at the sample invocations *)
(* ================================================================== *)

Ltac not_listed :=
  simpl; let H := fresh in
  intros H; repeat (destruct H as [H|H]; [discriminate H|]); exact H.

Ltac accepted := repeat split; reflexivity.


(** The two runs, evaluated: with the empty [fixedCode], one error
    notification and no edit; with the edit turned down, the success
    notice, the edit on the log and the text as it was. *)
Lemma empty_fixedCode_run :
  messages (snd (fixCode Sample.emptyFixHost true Sample.typoWorld))
  = [notice SevError (lit "Self-Healing Assistant: No fixed code received from AI")]
  /\ edits (snd (fixCode Sample.emptyFixHost true Sample.typoWorld)) = []
  /\ document (snd (fixCode Sample.emptyFixHost true Sample.typoWorld))
     = lit "cosnole.log(1)".
Proof. repeat split. Qed.

Lemma refused_edit_run :
  messages (snd (fixCode Sample.refusingHost true Sample.typoWorld))
  = [successNotice (Some (lit "fixed typo"))]
  /\ edits (snd (fixCode Sample.refusingHost true Sample.typoWorld))
     = [(Sample.range 0 0 0 14, lit "console.log(1)")]
  /\ document (snd (fixCode Sample.refusingHost true Sample.typoWorld))
     = lit "cosnole.log(1)".
Proof. repeat split. Qed.



(** C3 at a Rust document and at a JavaScript document that holds only
    no-break spaces and a line separator. *)
Lemma C3_witness :
  (fixCode Sample.rustHost false (Sample.world (lit "fn main() {}"))
   = (Returned tt,
      pushMessage (notice SevWarning (unsupportedMessage (lit "rust")))
                  (Sample.world (lit "fn main() {}")))
   /\ requests (snd (fixCode Sample.rustHost false (Sample.world (lit "fn main() {}"))))
      = [])
  /\ exists m,
       msg_severity m <> SevInformation
       /\ fixCode Sample.typoHost false Sample.blankWorld
          = (Returned tt, pushMessage m Sample.blankWorld).
Proof.
  split.
  - destruct (C3_unsupported_language_or_blank_input_sends_nothing
                Sample.rustHost false (Sample.world (lit "fn main() {}"))
                (Sample.editorOn (lit "rust") (Sample.range 0 0 0 0)) eq_refl)
      as [Hlang _].
    destruct Hlang as (Hrun & _ & Hreq); [not_listed|].
    split; [exact Hrun | exact Hreq].
  - destruct (C3_unsupported_language_or_blank_input_sends_nothing
                Sample.typoHost false Sample.blankWorld
                (Sample.editorOn (lit "javascript") (Sample.range 0 0 0 14)) eq_refl)
      as [_ Hblank].
    destruct (Hblank eq_refl) as (m & _ & Hsev & Hrun & _).
    exists m. split; [exact Hsev | exact Hrun].
Defined.

(** C5 at a refused connection, a 404, a timeout under the default and
    under a fractional setting, and a 500. *)
Lemma C5_witness :
  fst (sendCodeToAI (Sample.failingHost Sample.refused) Sample.typoPayload
         Sample.typoWorld)
  = Threw (ThrownError
             (newError
                (lit "Cannot connect to n8n at http://localhost:5678/webhook/fix. Is n8n running?")))
  /\ fst (sendCodeToAI (Sample.failingHost Sample.notFound) Sample.typoPayload
            Sample.typoWorld)
     = Threw (ThrownError
                (newError (lit "Webhook endpoint not found. Check your n8n workflow.")))
  /\ fst (sendCodeToAI (Sample.failingHost Sample.timedOut) Sample.typoPayload
            Sample.typoWorld)
     = Threw (ThrownError
                (newError
                   (lit "Request timed out after 30000ms. Try increasing the timeout.")))
  /\ fst (sendCodeToAI Sample.impatientHost Sample.typoPayload Sample.typoWorld)
     = Threw (ThrownError
                (newError
                   (lit "Request timed out after 1500.5ms. Try increasing the timeout.")))
  /\ fst (sendCodeToAI (Sample.failingHost Sample.serverError) Sample.typoPayload
            Sample.typoWorld)
     = Threw (ThrownError Sample.serverError).
Proof.
  assert (Hs : forall e, Settles (Sample.failingHost e) Sample.endpoint
                                 Sample.typoPayload (inl (ThrownError e)))
    by (intros e; repeat split).
  split; [|split; [|split; [|split]]].
  - destruct (C5_transport_failures_are_mapped_once
                _ _ _ Sample.typoWorld _ (Hs Sample.refused))
      as (_ & Hrefused & _).
    destruct (Hrefused eq_refl) as [Hrun _]. exact Hrun.
  - destruct (C5_transport_failures_are_mapped_once
                _ _ _ Sample.typoWorld _ (Hs Sample.notFound))
      as (_ & _ & H404 & _).
    apply H404; [reflexivity | discriminate].
  - destruct (C5_transport_failures_are_mapped_once
                _ _ _ Sample.typoWorld _ (Hs Sample.timedOut))
      as (_ & _ & _ & Htimeout & _).
    destruct Htimeout as [Hrun _]; [reflexivity | discriminate | exact Hrun].
  - destruct (C5_transport_failures_are_mapped_once
                Sample.impatientHost Sample.endpoint Sample.typoPayload
                Sample.typoWorld Sample.timedOut)
      as (_ & _ & _ & Htimeout & _); [repeat split|].
    destruct Htimeout as [Hrun _]; [reflexivity | discriminate | exact Hrun].
  - destruct (C5_transport_failures_are_mapped_once
                _ _ _ Sample.typoWorld _ (Hs Sample.serverError))
      as (_ & _ & _ & _ & Hother & _).
    apply Hother; discriminate.
Defined.



(** The same run, evaluated: the edit lands on the typed character. *)
Lemma racing_run :
  requests (snd (fixCode Sample.racingHost true Sample.racingWorld))
  = [mkRequest Sample.endpoint
       (mkPayload (lit "a") (lit "javascript") (lit "/work/app.js")
                  [lit "Line 1: Cannot find name (Error)"]) ms30000]
  /\ edits (snd (fixCode Sample.racingHost true Sample.racingWorld))
     = [(Sample.range 0 0 0 1, lit "A")]
  /\ document (snd (fixCode Sample.racingHost true Sample.racingWorld)) = lit "Aab".
Proof. repeat split. Qed.


(** C8 at the scenario of the specification: whole-file fix, preview on,
    Cancel at the first prompt. *)
Lemma C8_witness :
  messages (snd (fixCode (Sample.previewHost (Some (lit "Cancel")) None) false
                         Sample.typoWorld))
  = [firstPrompt (Some (lit "fixed typo")); notice SevInformation (lit "Code fix cancelled.")]
  /\ edits (snd (fixCode (Sample.previewHost (Some (lit "Cancel")) None) false
                         Sample.typoWorld)) = []
  /\ document (snd (fixCode (Sample.previewHost (Some (lit "Cancel")) None) false
                            Sample.typoWorld)) = lit "cosnole.log(1)".
Proof.
  destruct (C8_cancel_at_first_prompt_changes_nothing
              (Sample.previewHost (Some (lit "Cancel")) None) eq_refl eq_refl)
    as (_ & _ & Hreached).
  destruct (Hreached false Sample.typoWorld
              (Sample.editorOn (lit "javascript") (Sample.range 0 0 0 14))
              (lit "cosnole.log(1)") (Doc.wholeRange (lit "cosnole.log(1)"))
              Sample.endpoint Sample.typoFix (lit "console.log(1)"))
    as (_ & Hmsg & Hedits & Hdoc & _);
    [accepted | accepted | reflexivity | discriminate |].
  split; [exact Hmsg|]. split; [exact Hedits | exact Hdoc].
Defined.

(** C10 at a dismissed first prompt and at a dismissed second prompt. *)
Lemma C10_witness :
  (messages (snd (showDiffAndApply (Sample.previewHost None None)
                    (lit "cosnole.log(1)") (lit "console.log(1)") (Some (lit "fixed typo"))
                    (Sample.range 0 0 0 14) Sample.typoWorld))
   = [firstPrompt (Some (lit "fixed typo"))]
   /\ edits (snd (showDiffAndApply (Sample.previewHost None None)
                    (lit "cosnole.log(1)") (lit "console.log(1)") (Some (lit "fixed typo"))
                    (Sample.range 0 0 0 14) Sample.typoWorld))
      = [])
  /\ messages (snd (showDiffAndApply (Sample.previewHost (Some (lit "Show Diff")) None)
                      (lit "cosnole.log(1)") (lit "console.log(1)") (Some (lit "fixed typo"))
                      (Sample.range 0 0 0 14) Sample.typoWorld))
     = [firstPrompt (Some (lit "fixed typo")); secondPrompt]
  /\ document (snd (showDiffAndApply (Sample.previewHost (Some (lit "Show Diff")) None)
                      (lit "cosnole.log(1)") (lit "console.log(1)") (Some (lit "fixed typo"))
                      (Sample.range 0 0 0 14) Sample.typoWorld))
     = lit "cosnole.log(1)".
Proof.
  split.
  - destruct (C10_prompt_without_apply_edits_nothing
                (Sample.previewHost None None) (lit "cosnole.log(1)") (lit "console.log(1)")
                (Some (lit "fixed typo")) (Sample.range 0 0 0 14) Sample.typoWorld)
      as [Hfirst _].
    destruct (Hfirst eq_refl) as (_ & Hmsg & Hedits & _).
    split; [exact Hmsg | exact Hedits].
  - destruct (C10_prompt_without_apply_edits_nothing
                (Sample.previewHost (Some (lit "Show Diff")) None) (lit "cosnole.log(1)")
                (lit "console.log(1)") (Some (lit "fixed typo")) (Sample.range 0 0 0 14)
                Sample.typoWorld)
      as [_ Hsecond].
    destruct (Hsecond eq_refl ltac:(discriminate)) as (_ & Hmsg & _ & Hdoc).
    split; [exact Hmsg | exact Hdoc].
Defined.

(* ================================================================== *)
(** ** Further properties of the handler *)
(* ================================================================== *)

Lemma skipn_length_app {A} (l l' : list A) :
  skipn (List.length l) (l ++ l') = l'.
Proof. now rewrite skipn_app, skipn_all, Nat.sub_diag. Qed.

(** With the preview off, an accepted invocation whose reply holds a
    non-empty [fixedCode] applies it and completes. *)
Lemma fixCode_direct h selectionOnly w editor c rg url r fixed :
  Accepted h selectionOnly w editor c rg ->
  Settles h url (payloadFor h editor c) (inr (BodyObject r)) ->
  fixedCode r = Some fixed -> Js.truthy fixed = true ->
  get (showDiffPreview (configuration h)) true = false ->
  fixCode h selectionOnly w
  = (Returned tt,
     pushProgress 100 (lit "Complete!")
       (applied h fixed (explanation r) rg
                (atStage h url (payloadFor h editor c) r w))).
Proof.
  intros Ha Hs Hf Ht Hp.
  apply (fixCode_returned _ _ _ _ _ _ _ Ha).
  rewrite (fixCodeTask_valid _ _ _ _ _ _ _ _ Hs Hf Ht), Hp.
  reflexivity.
Qed.

(** The five ways the diff/apply flow can leave the world. *)
Lemma showDiffAndApply_ends h originalCode fixed explained range w :
  fst (showDiffAndApply h originalCode fixed explained range w) = Returned tt
  /\ In (snd (showDiffAndApply h originalCode fixed explained range w))
        [ asked explained w;
          applied h fixed explained range (asked explained w);
          pushMessage cancelledNotice (asked explained w);
          applied h fixed explained range
                  (diffShown originalCode fixed explained w);
          diffShown originalCode fixed explained w ].
Proof.
  unfold showDiffAndApply, showDiffDocument, applyFixedCode, showSuccessMessage.
  unfold_calls. cbn beta iota.
  destruct (firstAnswer h) as [a|]; [|split; [reflexivity | now left]].
  destruct (Js.eqb a (lit "Apply Changes"));
    [split; [reflexivity | right; now left]|].
  destruct (Js.eqb a (lit "Show Diff")).
  - destruct (secondAnswer h) as [b|];
      [destruct (Js.eqb b (lit "Apply"))|];
      (split; [reflexivity|]); cbn [snd In]; auto 6.
  - destruct (Js.eqb a (lit "Cancel"));
      (split; [reflexivity|]); cbn [snd In]; auto.
Qed.

(** Every way an invocation can end, with the world it leaves. *)
Lemma fixCode_outcomes h selectionOnly w :
  (exists m, In m (rejections h)
             /\ snd (fixCode h selectionOnly w) = pushMessage m w)
  \/ (exists editor c rg e w1,
         Accepted h selectionOnly w editor c rg
         /\ TaskEnd h editor c rg w (Threw e) w1
         /\ snd (fixCode h selectionOnly w)
            = pushMessage
                (errorNotice match e with
                             | ThrownError o => err_message o
                             | ThrownOther _ _ => genericMessage
                             end)
                (pushConsole (LogError e) w1))
  \/ (exists editor c rg url r fixed wf,
         Accepted h selectionOnly w editor c rg
         /\ Settles h url (payloadFor h editor c) (inr (BodyObject r))
         /\ fixedCode r = Some fixed /\ Js.truthy fixed = true
         /\ (if get (showDiffPreview (configuration h)) true then
               In wf [ asked (explanation r)
                             (atStage h url (payloadFor h editor c) r w);
                       applied h fixed (explanation r) rg
                         (asked (explanation r)
                                (atStage h url (payloadFor h editor c) r w));
                       pushMessage cancelledNotice
                         (asked (explanation r)
                                (atStage h url (payloadFor h editor c) r w));
                       applied h fixed (explanation r) rg
                         (diffShown c fixed (explanation r)
                                    (atStage h url (payloadFor h editor c) r w));
                       diffShown c fixed (explanation r)
                                 (atStage h url (payloadFor h editor c) r w) ]
             else
               wf = applied h fixed (explanation r) rg
                            (atStage h url (payloadFor h editor c) r w))
         /\ snd (fixCode h selectionOnly w) = pushProgress 100 (lit "Complete!") wf).
Proof.
  destruct (fixCode_validation h selectionOnly w)
    as [(editor & c & rg & Ha)|(_ & m & Hm & Hrun)].
  2:{ left. exists m. split; [exact Hm | now rewrite Hrun]. }
  right.
  destruct (sendCodeToAI_settles h (payloadFor h editor c))
    as [Hu|(url & [e|[|r]] & Hs)].
  - left. exists editor, c, rg. do 2 eexists. split; [exact Ha|].
    split; [now apply EndUnconfigured|].
    now rewrite (fixCode_threw _ _ _ _ _ _ _ _ Ha
                   (fixCodeTask_unconfigured h editor c rg w Hu)).
  - left. exists editor, c, rg. do 2 eexists. split; [exact Ha|].
    split; [apply EndRejected; exact Hs|].
    now rewrite (fixCode_threw _ _ _ _ _ _ _ _ Ha
                   (fixCodeTask_rejected h editor c rg w url e Hs)).
  - left. exists editor, c, rg. do 2 eexists. split; [exact Ha|].
    split; [apply EndNullBody; exact Hs|].
    now rewrite (fixCode_threw _ _ _ _ _ _ _ _ Ha
                   (fixCodeTask_null h editor c rg w url Hs)).
  - destruct (Js.truthyOpt (fixedCode r)) eqn:Hf.
    + right. unfold Js.truthyOpt in Hf.
      destruct (fixedCode r) as [fixed|] eqn:Hfc; [|discriminate].
      destruct (get (showDiffPreview (configuration h)) true) eqn:Hp.
      * exists editor, c, rg, url, r, fixed. eexists.
        split; [exact Ha|]. split; [exact Hs|]. split; [exact Hfc|].
        split; [exact Hf|]. cbn iota.
        split; [|now rewrite (fixCode_preview _ _ _ _ _ _ _ _ _ Ha Hs Hfc Hf Hp)].
        apply showDiffAndApply_ends.
      * exists editor, c, rg, url, r, fixed. eexists.
        split; [exact Ha|]. split; [exact Hs|]. split; [exact Hfc|].
        split; [exact Hf|]. cbn iota.
        split; [reflexivity|].
        now rewrite (fixCode_direct _ _ _ _ _ _ _ _ _ Ha Hs Hfc Hf Hp).
    + left. exists editor, c, rg. do 2 eexists. split; [exact Ha|].
      split; [apply (EndInvalid _ _ _ _ _ url r); assumption|].
      now rewrite (fixCode_threw _ _ _ _ _ _ _ _ Ha
                     (fixCodeTask_invalid h editor c rg w url r Hs Hf)).
Qed.



(** X3: the remote client only talks to the network and the console.
    Whatever the configuration and however the POST settles, it shows no
    message, applies no edit, opens no diff and reports no progress; it
    issues no request or the one POST of its payload to the configured
    endpoint with the configured timeout; and with logging off (the
    default) it writes nothing to the console. *)
Theorem X3_sendCodeToAI_touches_only_network_and_console
    (h : Host) (p : CodeFixPayload) (w : World) :
  messages (snd (sendCodeToAI h p w)) = messages w
  /\ edits (snd (sendCodeToAI h p w)) = edits w
  /\ diffs (snd (sendCodeToAI h p w)) = diffs w
  /\ progress (snd (sendCodeToAI h p w)) = progress w
  /\ (requests (snd (sendCodeToAI h p w)) = requests w
      \/ exists url,
           n8nWebhookUrl (configuration h) = Some url
           /\ requests (snd (sendCodeToAI h p w))
              = (requests w
                   ++ [mkRequest url p
                         (get (requestTimeout (configuration h)) ms30000)])%list)
  /\ (get (enableLogging (configuration h)) false = false ->
      console (snd (sendCodeToAI h p w)) = console w).
Proof.
  destruct (sendCodeToAI_settles h p) as [Hu|(url & [e|r] & Hs)].
  - rewrite (sendCodeToAI_unconfigured _ _ _ Hu). cbn [snd].
    repeat split; auto.
  - rewrite (sendCodeToAI_rejected _ _ _ _ _ Hs). cbn [snd].
    destruct Hs as (Hu & _). world_simpl.
    repeat split; try reflexivity.
    + right. exists url. split; [exact Hu | reflexivity].
    + intros Hoff. unfold logged. now rewrite Hoff.
  - rewrite (sendCodeToAI_resolved _ _ _ _ _ Hs). cbn [snd].
    destruct Hs as (Hu & _). world_simpl.
    repeat split; try reflexivity.
    + right. exists url. split; [exact Hu | reflexivity].
    + intros Hoff. unfold logged. rewrite Hoff. now world_simpl.
Qed.

(** X4: with logging on, the client logs the request before the POST with
    the code replaced by its length ([<n> chars]), the other payload fields
    as they are, and logs the response body only when the POST resolves: a
    rejected POST leaves the request entry as the only one. *)
Theorem X4_logging_hides_the_code_and_skips_failed_replies
    (h : Host) (url : jstring) (p : CodeFixPayload)
    (result : Thrown + Body) (w : World) :
  get (enableLogging (configuration h)) false = true ->
  Settles h url p result ->
  console (snd (sendCodeToAI h p w))
  = (console w
       ++ LogSending
            (mkPayload (Js.showNat (List.length (code p)) ++ lit " chars")
                       (language p) (filename p) (problems p))
       :: match result with
          | inr r => [LogResponse r]
          | inl _ => []
          end)%list.
Proof.
  intros Hon Hs. destruct result as [e|r].
  - rewrite (sendCodeToAI_rejected _ _ _ _ _ Hs). cbn [snd].
    unfold afterPost, logged. rewrite Hon. now world_simpl.
  - rewrite (sendCodeToAI_resolved _ _ _ _ _ Hs). cbn [snd].
    unfold afterPost, logged. rewrite Hon. world_simpl.
    now rewrite <- app_assoc.
Qed.

(** An accepted invocation with a configured endpoint whose POST is
    rejected: the world the handler leaves. *)
Lemma fixCode_transport_failure h selectionOnly w editor c rg url e :
  Accepted h selectionOnly w editor c rg ->
  Settles h url (payloadFor h editor c) (inl e) ->
  snd (fixCode h selectionOnly w)
  = pushMessage
      (errorNotice match rethrow url (timeoutOf h) e with
                   | ThrownError o => err_message o
                   | ThrownOther _ _ => genericMessage
                   end)
      (pushConsole (LogError (rethrow url (timeoutOf h) e))
                   (afterPost h url (payloadFor h editor c) (started w))).
Proof.
  intros Ha Hs.
  now rewrite (fixCode_threw _ _ _ _ _ _ _ _ Ha
                 (fixCodeTask_rejected h editor c rg w url e Hs)).
Qed.

(** X5: what the user sees when the POST of an accepted invocation is
    rejected with an [Error]: one error notification, made of the
    assistant's name and, by case, the connection text with the endpoint
    URL (code ECONNREFUSED), the endpoint-not-found text (status 404), the
    timeout text with the configured timeout (code ECONNABORTED), or the
    error's own message; the progress stops after the second step, one
    request was issued and no edit is applied. *)
Theorem X5_rejected_post_is_reported_with_the_mapped_text
    (h : Host) (selectionOnly : bool) (w : World) (editor : Editor)
    (c : jstring) (rg : Doc.Range) (url : jstring) (o : ErrorObject) :
  Accepted h selectionOnly w editor c rg ->
  Settles h url (payloadFor h editor c) (inl (ThrownError o)) ->
  (exists text,
      messages (snd (fixCode h selectionOnly w))
      = (messages w ++ [notice SevError (lit "Self-Healing Assistant: " ++ text)])%list
      /\ (err_code o = Some (lit "ECONNREFUSED") ->
          text = lit "Cannot connect to n8n at " ++ url ++ lit ". Is n8n running?")
      /\ (err_status o = Some 404%Z -> err_code o <> Some (lit "ECONNREFUSED") ->
          text = lit "Webhook endpoint not found. Check your n8n workflow.")
      /\ (err_code o = Some (lit "ECONNABORTED") -> err_status o <> Some 404%Z ->
          text = lit "Request timed out after "
                   ++ numberText (get (requestTimeout (configuration h)) ms30000)
                   ++ lit "ms. Try increasing the timeout.")
      /\ (err_code o <> Some (lit "ECONNREFUSED") -> err_status o <> Some 404%Z ->
          err_code o <> Some (lit "ECONNABORTED") -> text = err_message o))
  /\ reportedSince w (snd (fixCode h selectionOnly w))
     = [(0, lit "Analyzing code..."); (20, lit "Sending to AI...")]
  /\ requests (snd (fixCode h selectionOnly w))
     = (requests w
          ++ [mkRequest url (payloadFor h editor c)
                (get (requestTimeout (configuration h)) ms30000)])%list
  /\ NoEditApplied h w (snd (fixCode h selectionOnly w)).
Proof.
  intros Ha Hs. rewrite (fixCode_transport_failure _ _ _ _ _ _ _ _ Ha Hs).
  split; [|split; [|split]].
  - eexists. split; [world_simpl; reflexivity|].
    unfold rethrow. cbn [codeOf statusOf]. split; [|split; [|split]].
    + intros Hc. apply optString_eqb_true in Hc. now rewrite Hc.
    + intros Hst Hc. apply optZ_eqb_true in Hst.
      now rewrite (optString_eqb_false _ _ Hc), Hst.
    + intros Hc Hst.
      assert (Hr : err_code o <> Some (lit "ECONNREFUSED")) by (rewrite Hc; discriminate).
      rewrite (optString_eqb_false _ _ Hr), (optZ_eqb_false _ _ Hst).
      apply optString_eqb_true in Hc. now rewrite Hc.
    + intros Hr Hst Hab.
      now rewrite (optString_eqb_false _ _ Hr), (optZ_eqb_false _ _ Hst),
        (optString_eqb_false _ _ Hab).
  - unfold reportedSince. world_simpl. rewrite <- app_assoc.
    apply skipn_length_app.
  - now world_simpl.
  - world_simpl. split; [reflexivity | now right].
Qed.

(** X6: when the POST is rejected with a value that is not an [Error], the
    client's catch block still reads [code] and [response?.status] off it:
    a value carrying code ECONNREFUSED, status 404 or code ECONNABORTED is
    replaced by the same three errors as an [Error] would be, and their
    texts are shown.  A value that matches none of the three is thrown on
    untouched; the handler, finding it is not an [Error], shows its generic
    text and writes the value to the console.  No edit is given to the
    editor in any of these cases. *)
Theorem X6_non_error_rejection_is_mapped_or_gets_the_generic_text
    (h : Host) (selectionOnly : bool) (w : World) (editor : Editor)
    (c : jstring) (rg : Doc.Range) (url : jstring)
    (code : option jstring) (status : option Z) :
  Accepted h selectionOnly w editor c rg ->
  Settles h url (payloadFor h editor c) (inl (ThrownOther code status)) ->
  (code = Some (lit "ECONNREFUSED") ->
   messages (snd (fixCode h selectionOnly w))
   = (messages w
        ++ [notice SevError
              (lit "Self-Healing Assistant: "
                 ++ lit "Cannot connect to n8n at " ++ url
                 ++ lit ". Is n8n running?")])%list)
  /\ (status = Some 404%Z -> code <> Some (lit "ECONNREFUSED") ->
      messages (snd (fixCode h selectionOnly w))
      = (messages w
           ++ [notice SevError
                 (lit "Self-Healing Assistant: "
                    ++ lit "Webhook endpoint not found. Check your n8n workflow.")])%list)
  /\ (code = Some (lit "ECONNABORTED") -> status <> Some 404%Z ->
      messages (snd (fixCode h selectionOnly w))
      = (messages w
           ++ [notice SevError
                 (lit "Self-Healing Assistant: "
                    ++ lit "Request timed out after "
                    ++ numberText (get (requestTimeout (configuration h)) ms30000)
                    ++ lit "ms. Try increasing the timeout.")])%list)
  /\ (code <> Some (lit "ECONNREFUSED") -> status <> Some 404%Z ->
      code <> Some (lit "ECONNABORTED") ->
      fst (fixCodeTask h editor c rg w) = Threw (ThrownOther code status)
      /\ messages (snd (fixCode h selectionOnly w))
         = (messages w
              ++ [notice SevError
                    (lit "Self-Healing Assistant: An error occurred while fixing code.")])%list
      /\ (exists before,
            console (snd (fixCode h selectionOnly w))
            = (before ++ [LogError (ThrownOther code status)])%list))
  /\ NoEditApplied h w (snd (fixCode h selectionOnly w)).
Proof.
  intros Ha Hs. rewrite (fixCode_transport_failure _ _ _ _ _ _ _ _ Ha Hs).
  rewrite (fixCodeTask_rejected h editor c rg w url _ Hs). cbn [fst].
  unfold rethrow. cbn [codeOf statusOf]. split; [|split; [|split; [|split]]].
  - intros Hc. apply optString_eqb_true in Hc. rewrite Hc. now world_simpl.
  - intros Hst Hc. apply optZ_eqb_true in Hst.
    rewrite (optString_eqb_false _ _ Hc), Hst. now world_simpl.
  - intros Hc Hst.
    assert (Hr : code <> Some (lit "ECONNREFUSED")) by (rewrite Hc; discriminate).
    rewrite (optString_eqb_false _ _ Hr), (optZ_eqb_false _ _ Hst).
    apply optString_eqb_true in Hc. rewrite Hc. now world_simpl.
  - intros Hr Hst Hab.
    rewrite (optString_eqb_false _ _ Hr), (optZ_eqb_false _ _ Hst),
      (optString_eqb_false _ _ Hab).
    split; [reflexivity|]. split; [now world_simpl|].
    eexists. rewrite console_pushMessage, console_pushConsole. reflexivity.
  - world_simpl. split; [reflexivity | now right].
Qed.

(** An accepted invocation starts the task, which reports its first
    step. *)
Lemma accepted_reports h selectionOnly w editor c rg :
  Accepted h selectionOnly w editor c rg ->
  exists steps,
    progress (snd (fixCode h selectionOnly w))
    = (progress w ++ (0, lit "Analyzing code...") :: steps)%list.
Proof.
  intros Ha. pose proof (fixCodeTask_ends h editor c rg w) as Hend.
  destruct (fixCodeTask h editor c rg w) as [[[]|e] w1] eqn:Hrun;
    cbn [fst snd] in Hend.
  - rewrite (fixCode_returned _ _ _ _ _ _ _ Ha Hrun). cbn [snd].
    inversion Hend; subst; clear Hend.
    match goal with Hp : progress _ = progress _ |- _ => revert Hp end.
    world_simpl. intros ->. rewrite <- !app_assoc. eexists. reflexivity.
  - rewrite (fixCode_threw _ _ _ _ _ _ _ _ Ha Hrun), handleError_shows.
    cbn [snd]. inversion Hend; subst; clear Hend; world_simpl;
      rewrite <- ?app_assoc; eexists; reflexivity.
Qed.

(** X7: the task runs (its first progress step is reported) exactly when
    an editor is active, its language is on the allow-list, a selection
    exists if only the selection is to be fixed, and the text to send is
    not blank. *)
Theorem X7_task_runs_exactly_when_all_checks_pass
    (h : Host) (selectionOnly : bool) (w : World) :
  progress (snd (fixCode h selectionOnly w)) <> progress w
  <-> exists editor,
        activeTextEditor h = Some editor
        /\ In (languageId editor)
              [lit "javascript"; lit "typescript"; lit "python"; lit "java"; lit "cpp"; lit "c";
                lit "go"; lit "php"; lit "csharp"; lit "ruby"; lit "swift"; lit "kotlin" ]
        /\ (selectionOnly = true -> Doc.isEmpty (selection editor) = false)
        /\ Js.allWhiteSpace (inputText selectionOnly editor (document w)) = false.
Proof.
  split.
  - intros Hchanged.
    destruct (fixCode_validation h selectionOnly w)
      as [(editor & c & rg & Ha)|(_ & m & _ & Hrun)].
    2:{ exfalso. apply Hchanged. now rewrite Hrun. }
    exists editor. pose proof (Accepted_inputText _ _ _ _ _ _ Ha) as Hc.
    destruct Ha as (He & Hl & Ht & Htrim).
    split; [exact He|]. split; [now apply includes_In|]. split.
    + intros ->. unfold chooseTarget in Ht.
      destruct (Doc.isEmpty (selection editor)); [discriminate | reflexivity].
    + subst c.
      destruct (Js.allWhiteSpace (inputText selectionOnly editor (document w)))
        eqn:Hblank; [|reflexivity].
      rewrite (trim_allWhiteSpace _ Hblank) in Htrim. discriminate.
  - intros (editor & He & Hl & Hsel & Hblank).
    assert (Ha : exists c rg, Accepted h selectionOnly w editor c rg).
    { unfold Accepted, chooseTarget, inputText in *.
      destruct selectionOnly.
      - rewrite (Hsel eq_refl). cbn [negb andb]. do 2 eexists.
        split; [exact He|]. split; [now apply includes_In|].
        split; [reflexivity|]. apply truthy_nonempty. intros Htrim.
        apply trim_empty_allWhiteSpace in Htrim. congruence.
      - cbn [negb andb]. do 2 eexists.
        split; [exact He|]. split; [now apply includes_In|].
        split; [reflexivity|]. apply truthy_nonempty. intros Htrim.
        apply trim_empty_allWhiteSpace in Htrim. congruence. }
    destruct Ha as (c & rg & Ha).
    destruct (accepted_reports _ _ _ _ _ _ Ha) as (steps & ->).
    intros Hsame. symmetry in Hsame.
    apply (f_equal (@List.length _)) in Hsame.
    rewrite length_app in Hsame. simpl in Hsame. lia.
Qed.

(** X8: a whole-file fix does not look at the selection: moving the
    selection changes nothing in what the handler does. *)
Theorem X8_whole_file_fix_ignores_the_selection
    (h : Host) (sel : Doc.Range) (w : World) :
  fixCode (withSelection h sel) false w = fixCode h false w.
Proof.
  destruct h as [[[lang file sel0]|] cfg ds out typed a1 a2]; reflexivity.
Qed.

(** X9: which check answers.  With an active editor on a supported
    language, fixing the selection when nothing is selected reports the
    missing selection, whatever the document holds (it neither falls back
    to the whole file nor sends anything); and when a text was chosen but
    is blank, the handler reports the empty input, under either scope. *)
Theorem X9_missing_selection_and_blank_input_messages
    (h : Host) (w : World) (editor : Editor) :
  activeTextEditor h = Some editor ->
  In (languageId editor)
     [lit "javascript"; lit "typescript"; lit "python"; lit "java"; lit "cpp"; lit "c";
       lit "go"; lit "php"; lit "csharp"; lit "ruby"; lit "swift"; lit "kotlin" ] ->
  (Doc.isEmpty (selection editor) = true ->
   fixCode h true w
   = (Returned tt,
      pushMessage
        (notice SevError
           (lit "No code selected. Select code first or use " ++ dquote
              ++ lit "Fix Entire File" ++ dquote ++ lit "."))
        w))
  /\ (forall selectionOnly,
        (selectionOnly = true -> Doc.isEmpty (selection editor) = false) ->
        Js.allWhiteSpace (inputText selectionOnly editor (document w)) = true ->
        fixCode h selectionOnly w
        = (Returned tt, pushMessage (notice SevError (lit "Selected code is empty.")) w)).
Proof.
  intros He Hl. apply includes_In in Hl.
  change (isSupportedLanguage (languageId editor) = true) in Hl.
  split.
  - intros Hempty. unfold fixCode. rewrite He, Hl. cbn [negb].
    unfold bind, readDocument, chooseTarget. now rewrite Hempty.
  - intros selectionOnly Hsel Hblank. unfold fixCode. rewrite He, Hl. cbn [negb].
    unfold bind, readDocument, chooseTarget, inputText in *.
    destruct selectionOnly.
    + rewrite (Hsel eq_refl). cbn [negb andb].
      now rewrite (trim_allWhiteSpace _ Hblank).
    + cbn [negb andb]. now rewrite (trim_allWhiteSpace _ Hblank).
Qed.

(** What an invocation appends to the logs of the host is one of the
    eight traces. *)
Lemma fixCode_trace (h : Host) (selectionOnly : bool) (w : World) :
  exists shown added steps opened,
    messages (snd (fixCode h selectionOnly w)) = (messages w ++ shown)%list
    /\ edits (snd (fixCode h selectionOnly w)) = (edits w ++ added)%list
    /\ progress (snd (fixCode h selectionOnly w)) = (progress w ++ steps)%list
    /\ diffs (snd (fixCode h selectionOnly w)) = (diffs w ++ opened)%list
    /\ Trace h shown added steps opened.
Proof.
  destruct (fixCode_outcomes h selectionOnly w)
    as [(m & Hm & ->)
       |[(editor & c & rg & e & w1 & Ha & Hend & ->)
        |(editor & c & rg & url & r & fixed & wf & Ha & Hs & Hf & Ht & Hwf & ->)]].
  - exists [m], [], [], []. world_simpl. rewrite !app_nil_r.
    repeat split. now constructor.
  - inversion Hend; subst; clear Hend.
    + do 4 eexists. world_simpl. rewrite <- ?app_assoc.
      split; [reflexivity|]. split; [symmetry; apply app_nil_r|].
      split; [reflexivity|]. split; [symmetry; apply app_nil_r|].
      apply TraceThrown. now left.
    + do 4 eexists. world_simpl. rewrite <- ?app_assoc.
      split; [reflexivity|]. split; [symmetry; apply app_nil_r|].
      split; [reflexivity|]. split; [symmetry; apply app_nil_r|].
      apply TraceThrown. now left.
    + do 4 eexists. world_simpl. rewrite <- ?app_assoc.
      split; [reflexivity|]. split; [symmetry; apply app_nil_r|].
      split; [reflexivity|]. split; [symmetry; apply app_nil_r|].
      apply TraceThrown. right. now left.
    + do 4 eexists. world_simpl. rewrite <- ?app_assoc.
      split; [reflexivity|]. split; [symmetry; apply app_nil_r|].
      split; [reflexivity|]. split; [symmetry; apply app_nil_r|].
      apply TraceThrown. right. now left.
  - destruct (get (showDiffPreview (configuration h)) true) eqn:Hp.
    + destruct Hwf as [<-|[<-|[<-|[<-|[<-|[]]]]]];
        do 4 eexists; world_simpl; rewrite <- ?app_assoc;
        (split; [reflexivity|]);
        (split; [first [reflexivity | symmetry; apply app_nil_r]|]);
        (split; [reflexivity|]);
        (split; [first [reflexivity | symmetry; apply app_nil_r]|]).
      * now apply TraceDismissed.
      * now apply TraceApplied.
      * now apply TraceCancelled.
      * now apply TraceDiffApplied.
      * now apply TraceDiffOnly.
    + subst wf. do 4 eexists. world_simpl. rewrite <- ?app_assoc.
      split; [reflexivity|]. split; [reflexivity|].
      split; [reflexivity|]. split; [symmetry; apply app_nil_r|].
      now apply TraceDirect.
Qed.


(** The messages of a trace that are the success notice, and its edits. *)
Lemma Trace_success_iff_edit h shown added steps opened :
  Trace h shown added steps opened ->
  (added <> [] <-> exists explained, In (successNotice explained) shown)
  /\ List.length added <= 1.
Proof.
  intros Ht. inversion Ht; subst; clear Ht; (split; [|simpl; lia]).
  - split; [congruence|]. intros (e & [Heq|[]]).
    apply (rejections_not_information h) in H. now subst m.
  - split; [congruence|]. intros (e & [Heq|[]]). discriminate.
  - split; [|discriminate]. intros _. exists explained. now left.
  - split; [congruence|]. intros (e & [Heq|[]]). discriminate.
  - split; [|discriminate]. intros _. exists explained. right. now left.
  - split; [congruence|]. intros (e & [Heq|[Heq|[]]]); [discriminate|].
    apply (f_equal msg_text) in Heq. vm_compute in Heq. discriminate.
  - split; [|discriminate]. intros _. exists explained. do 2 right. now left.
  - split; [congruence|]. intros (e & [Heq|[Heq|[]]]); discriminate.
Qed.

(** When the editor turns its edits down, the text is never changed by
    the handler: it is what the user left there. *)
Lemma fixCode_document_when_refused h selectionOnly w :
  editApplied h = false ->
  document (snd (fixCode h selectionOnly w)) = document w
  \/ document (snd (fixCode h selectionOnly w)) = textAtResponse h w.
Proof.
  intros Hno.
  destruct (fixCode_outcomes h selectionOnly w)
    as [(m & Hm & ->)
       |[(editor & c & rg & e & w1 & Ha & Hend & ->)
        |(editor & c & rg & url & r & fixed & wf & Ha & Hs & Hf & Ht & Hwf & ->)]].
  - left. now world_simpl.
  - destruct (TaskEnd_threw _ _ _ _ _ _ _ Hend) as (_ & (_ & Hdoc) & _).
    now world_simpl.
  - right. destruct (get (showDiffPreview (configuration h)) true).
    + destruct Hwf as [<-|[<-|[<-|[<-|[<-|[]]]]]];
        world_simpl; rewrite ?Hno; reflexivity.
    + subst wf. world_simpl. now rewrite Hno.
Qed.

(** X11: the success notice is shown exactly when an edit was given to the
    editor, and no invocation gives it more than one.  The handler awaits
    [editor.edit] but does not read what it resolves to: when the editor
    turns the edit down, the text stays as the user left it, and the
    success notice is shown all the same. *)
Theorem X11_success_is_announced_exactly_when_an_edit_is_requested
    (h : Host) (selectionOnly : bool) (w : World) :
  (edits (snd (fixCode h selectionOnly w)) <> edits w
   <-> exists explained,
         In (successNotice explained)
            (shownSince w (snd (fixCode h selectionOnly w))))
  /\ List.length (edits (snd (fixCode h selectionOnly w)))
     <= S (List.length (edits w))
  /\ (editApplied h = false ->
      document (snd (fixCode h selectionOnly w)) = document w
      \/ document (snd (fixCode h selectionOnly w)) = textAtResponse h w).
Proof.
  split; [|split; [|apply fixCode_document_when_refused]];
    destruct (fixCode_trace h selectionOnly w)
      as (shown & added & steps & opened & Hm & He & _ & _ & Htrace);
    destruct (Trace_success_iff_edit _ _ _ _ _ Htrace) as [Hiff Hlen].
  - unfold shownSince. rewrite Hm, He, skipn_length_app.
    rewrite <- Hiff. split.
    + intros Hne ->. apply Hne. now rewrite app_nil_r.
    + intros Hne Heq. apply Hne.
      apply (f_equal (@List.length _)) in Heq. rewrite length_app in Heq.
      destruct added; [reflexivity | simpl in Heq; lia].
  - rewrite He, length_app. lia.
Qed.


Lemma rejections_are_notices h m :
  In m (rejections h) -> msg_modal m = false /\ msg_items m = [].
Proof.
  unfold rejections. intros [<-|[<-|[<-|H]]]; try (split; reflexivity).
  destruct (activeTextEditor h); simpl in H; [|contradiction].
  destruct H as [<-|[]]. split; reflexivity.
Qed.

(** X13: with the diff preview switched off the handler never asks: no
    invocation opens a diff, and every message it shows is a plain notice,
    neither modal nor with buttons. *)
Theorem X13_preview_off_never_prompts_nor_opens_a_diff
    (h : Host) (selectionOnly : bool) (w : World) :
  showDiffPreview (configuration h) = Some false ->
  diffs (snd (fixCode h selectionOnly w)) = diffs w
  /\ Forall (fun m => msg_modal m = false /\ msg_items m = [])
            (shownSince w (snd (fixCode h selectionOnly w))).
Proof.
  intros Hoff.
  assert (Hp : get (showDiffPreview (configuration h)) true = false)
    by now rewrite Hoff.
  destruct (fixCode_trace h selectionOnly w)
    as (shown & added & steps & opened & Hm & _ & _ & Hd & Htrace).
  unfold shownSince. rewrite Hm, Hd, skipn_length_app.
  inversion Htrace; subst; clear Htrace; try congruence.
  - split; [apply app_nil_r|]. constructor; [|constructor].
    now apply (rejections_are_notices h).
  - split; [apply app_nil_r|]. repeat constructor.
  - split; [apply app_nil_r|]. repeat constructor.
Qed.


(** X15: a whole-file fix of a document that is not blank, in a supported
    language and with an endpoint configured, issues exactly one POST to
    that endpoint; its payload holds the whole text as it was when the
    command was invoked, the language identifier, the file name and one
    formatted line per diagnostic, and its timeout is the configured one or
    30000 ms. *)
Theorem X15_whole_file_fix_posts_the_whole_document
    (h : Host) (w : World) (editor : Editor) (url : jstring) :
  activeTextEditor h = Some editor ->
  In (languageId editor)
     [lit "javascript"; lit "typescript"; lit "python"; lit "java"; lit "cpp"; lit "c";
       lit "go"; lit "php"; lit "csharp"; lit "ruby"; lit "swift"; lit "kotlin" ] ->
  Js.allWhiteSpace (document w) = false ->
  n8nWebhookUrl (configuration h) = Some url -> url <> [] ->
  requests (snd (fixCode h false w))
  = (requests w
       ++ [mkRequest url
             (mkPayload (document w) (languageId editor) (fileName editor)
                        (map formatDiagnostic (diagnostics h)))
             (get (requestTimeout (configuration h)) ms30000)])%list.
Proof.
  intros He Hl Hblank Hu Hne. apply truthy_nonempty in Hne.
  apply (fixCode_sends h false w editor (document w)
                       (Doc.wholeRange (document w)) url); try assumption.
  split; [exact He|]. split; [now apply includes_In|].
  split; [reflexivity|].
  apply truthy_nonempty. intros Htrim.
  apply trim_empty_allWhiteSpace in Htrim. congruence.
Qed.

(** The diff/apply flow edits only after an Apply answer. *)
Lemma showDiffAndApply_edits_on_apply h originalCode fixed explained range w :
  edits (snd (showDiffAndApply h originalCode fixed explained range w)) <> edits w ->
  firstAnswer h = Some (lit "Apply Changes")
  \/ (firstAnswer h = Some (lit "Show Diff") /\ secondAnswer h = Some (lit "Apply")).
Proof.
  unfold showDiffAndApply, showDiffDocument, applyFixedCode, showSuccessMessage.
  unfold_calls. cbn beta iota.
  destruct (firstAnswer h) as [a|]; [|intros H; now destruct H].
  destruct (Js.eqb a (lit "Apply Changes")) eqn:Ha;
    [apply jstring_eqb_eq in Ha; subst a; now left|].
  destruct (Js.eqb a (lit "Show Diff")) eqn:Hd.
  - apply jstring_eqb_eq in Hd. subst a.
    destruct (secondAnswer h) as [b|]; [|intros H; now destruct H].
    destruct (Js.eqb b (lit "Apply")) eqn:Hb;
      [apply jstring_eqb_eq in Hb; subst b; now right|].
    intros H. now destruct H.
  - destruct (Js.eqb a (lit "Cancel")); intros H; now destruct H.
Qed.

(** X16: with the diff preview on (the default) the document is edited
    only on the user's word: an invocation that applies an edit had Apply
    Changes answered at the first prompt, or Show Diff there and Apply at
    the second. *)
Theorem X16_preview_on_edits_only_after_an_apply_answer
    (h : Host) (selectionOnly : bool) (w : World) :
  get (showDiffPreview (configuration h)) true = true ->
  edits (snd (fixCode h selectionOnly w)) <> edits w ->
  firstAnswer h = Some (lit "Apply Changes")
  \/ (firstAnswer h = Some (lit "Show Diff") /\ secondAnswer h = Some (lit "Apply")).
Proof.
  intros Hp Hedit.
  destruct (fixCode_outcomes h selectionOnly w)
    as [(m & _ & Hrun)
       |[(editor & c & rg & e & w1 & _ & Hend & Hrun)
        |(editor & c & rg & url & r & fixed & wf & Ha & Hs & Hf & Ht & _ & _)]].
  - exfalso. apply Hedit. rewrite Hrun. now world_simpl.
  - exfalso. apply Hedit. rewrite Hrun.
    destruct (TaskEnd_threw _ _ _ _ _ _ _ Hend) as (_ & (Hsame & _) & _).
    now world_simpl.
  - rewrite (fixCode_preview _ _ _ _ _ _ _ _ _ Ha Hs Hf Ht Hp) in Hedit.
    cbn [snd] in Hedit. rewrite edits_pushProgress in Hedit.
    apply (showDiffAndApply_edits_on_apply h c fixed (explanation r) rg
             (atStage h url (payloadFor h editor c) r w)).
    intros Hsame. apply Hedit. rewrite Hsame. now world_simpl.
Qed.

(** With a non-empty [fixedCode] the task returns. *)
Lemma fixCodeTask_valid_returns h editor c rg w url r fixed :
  Settles h url (payloadFor h editor c) (inr (BodyObject r)) ->
  fixedCode r = Some fixed -> Js.truthy fixed = true ->
  fst (fixCodeTask h editor c rg w) = Returned tt.
Proof.
  intros Hs Hf Ht. rewrite (fixCodeTask_valid _ _ _ _ _ _ _ _ Hs Hf Ht).
  destruct (get (showDiffPreview (configuration h)) true).
  - destruct (showDiffAndApply_frame h c fixed (explanation r) rg
                (atStage h url (payloadFor h editor c) r w)) as (w' & Hrun & _).
    now rewrite (bind_returned _ _ _ _ _ Hrun).
  - reflexivity.
Qed.

(** X17: what reaches the console with logging off (the default): nothing
    when the invocation is turned down or the task returns, and exactly the
    thrown value when the task throws, so errors are logged even then. *)
Theorem X17_only_thrown_values_reach_the_console_with_logging_off
    (h : Host) (selectionOnly : bool) (w : World) :
  get (enableLogging (configuration h)) false = false ->
  ((forall editor c rg, ~ Accepted h selectionOnly w editor c rg) ->
   console (snd (fixCode h selectionOnly w)) = console w)
  /\ (forall editor c rg,
        Accepted h selectionOnly w editor c rg ->
        console (snd (fixCode h selectionOnly w))
        = (console w
             ++ match fst (fixCodeTask h editor c rg w) with
                | Threw e => [LogError e]
                | Returned _ => []
                end)%list).
Proof.
  intros Hoff.
  assert (Hlogged : forall e w0, logged h e w0 = w0)
    by (intros; unfold logged; now rewrite Hoff).
  split.
  - intros Hnot.
    destruct (fixCode_validation h selectionOnly w)
      as [(editor & c & rg & Ha)|(_ & m & _ & Hrun)].
    + now destruct (Hnot _ _ _ Ha).
    + rewrite Hrun. now world_simpl.
  - intros editor c rg Ha.
    destruct (sendCodeToAI_settles h (payloadFor h editor c))
      as [Hu|(url & [e|[|r]] & Hs)].
    + pose proof (fixCodeTask_unconfigured h editor c rg w Hu) as Hrun.
      rewrite (fixCode_threw _ _ _ _ _ _ _ _ Ha Hrun), Hrun. cbn [fst snd].
      now world_simpl.
    + pose proof (fixCodeTask_rejected h editor c rg w url e Hs) as Hrun.
      rewrite (fixCode_threw _ _ _ _ _ _ _ _ Ha Hrun), Hrun. cbn [fst snd].
      world_simpl. rewrite Hlogged. now world_simpl.
    + pose proof (fixCodeTask_null h editor c rg w url Hs) as Hrun.
      rewrite (fixCode_threw _ _ _ _ _ _ _ _ Ha Hrun), Hrun. cbn [fst snd].
      world_simpl. rewrite Hlogged. world_simpl. rewrite Hlogged.
      now world_simpl.
    + destruct (Js.truthyOpt (fixedCode r)) eqn:Hf.
      * unfold Js.truthyOpt in Hf.
        destruct (fixedCode r) as [fixed|] eqn:Hfc; [|discriminate].
        rewrite (fixCodeTask_valid_returns h editor c rg w url r fixed Hs Hfc Hf).
        rewrite app_nil_r.
        destruct (get (showDiffPreview (configuration h)) true) eqn:Hp.
        -- rewrite (fixCode_preview _ _ _ _ _ _ _ _ _ Ha Hs Hfc Hf Hp).
           cbn [snd].
           destruct (showDiffAndApply_ends h c fixed (explanation r) rg
                       (atStage h url (payloadFor h editor c) r w)) as [_ Hends].
           destruct Hends as [<-|[<-|[<-|[<-|[<-|[]]]]]];
             world_simpl; rewrite Hlogged; world_simpl; rewrite Hlogged;
             now world_simpl.
        -- rewrite (fixCode_direct _ _ _ _ _ _ _ _ _ Ha Hs Hfc Hf Hp).
           cbn [snd]. world_simpl. rewrite Hlogged. world_simpl.
           rewrite Hlogged. now world_simpl.
      * pose proof (fixCodeTask_invalid h editor c rg w url r Hs Hf) as Hrun.
        rewrite (fixCode_threw _ _ _ _ _ _ _ _ Ha Hrun), Hrun. cbn [fst snd].
        world_simpl. rewrite Hlogged. world_simpl. rewrite Hlogged.
        now world_simpl.
Qed.

(* ================================================================== *)
(** ** The further statements at the sample invocations *)
(* ================================================================== *)



(** X3 at the scenario: logging is off and the console stays empty. *)
Lemma X3_witness :
  console (snd (sendCodeToAI Sample.typoHost Sample.typoPayload Sample.typoWorld))
  = []
  /\ messages (snd (sendCodeToAI Sample.typoHost Sample.typoPayload
                      Sample.typoWorld)) = [].
Proof.
  destruct (X3_sendCodeToAI_touches_only_network_and_console
              Sample.typoHost Sample.typoPayload Sample.typoWorld)
    as (Hmsg & _ & _ & _ & _ & Hconsole).
  split; [exact (Hconsole eq_refl) | exact Hmsg].
Defined.

(** X4 at a resolved and at a refused POST with logging on. *)
Lemma X4_witness :
  console (snd (sendCodeToAI (Sample.loggingHost (inr (BodyObject Sample.typoFix)))
                  Sample.typoPayload Sample.typoWorld))
  = [LogSending (mkPayload (lit "14 chars") (lit "javascript") (lit "/work/app.js") []);
     LogResponse (BodyObject Sample.typoFix)]
  /\ console (snd (sendCodeToAI
                     (Sample.loggingHost (inl (ThrownError Sample.refused)))
                     Sample.typoPayload Sample.typoWorld))
     = [LogSending (mkPayload (lit "14 chars") (lit "javascript") (lit "/work/app.js") [])].
Proof.
  split.
  - apply (X4_logging_hides_the_code_and_skips_failed_replies
             (Sample.loggingHost (inr (BodyObject Sample.typoFix))) Sample.endpoint
             Sample.typoPayload (inr (BodyObject Sample.typoFix))
             Sample.typoWorld);
      [reflexivity | accepted].
  - apply (X4_logging_hides_the_code_and_skips_failed_replies
             (Sample.loggingHost (inl (ThrownError Sample.refused)))
             Sample.endpoint Sample.typoPayload
             (inl (ThrownError Sample.refused)) Sample.typoWorld);
      [reflexivity | accepted].
Defined.

(** X5 at a refused connection and at a server error. *)
Lemma X5_witness :
  messages (snd (fixCode (Sample.failingHost Sample.refused) true
                         Sample.typoWorld))
  = [notice SevError
       (lit "Self-Healing Assistant: Cannot connect to n8n at http://localhost:5678/webhook/fix. Is n8n running?")]
  /\ messages (snd (fixCode (Sample.failingHost Sample.serverError) true
                            Sample.typoWorld))
     = [notice SevError
          (lit "Self-Healing Assistant: Request failed with status code 500")].
Proof.
  split.
  - destruct (X5_rejected_post_is_reported_with_the_mapped_text
                (Sample.failingHost Sample.refused) true Sample.typoWorld
                Sample.typoEditor (lit "cosnole.log(1)") (Sample.range 0 0 0 14)
                Sample.endpoint Sample.refused)
      as ((text & Hmsg & Hrefused & _) & _); [accepted | accepted |].
    rewrite Hmsg, (Hrefused eq_refl). reflexivity.
  - destruct (X5_rejected_post_is_reported_with_the_mapped_text
                (Sample.failingHost Sample.serverError) true Sample.typoWorld
                Sample.typoEditor (lit "cosnole.log(1)") (Sample.range 0 0 0 14)
                Sample.endpoint Sample.serverError)
      as ((text & Hmsg & _ & _ & _ & Hother) & _); [accepted | accepted |].
    rewrite Hmsg, Hother by discriminate. reflexivity.
Defined.

(** X6 at a rejection value that carries the code of a refused
    connection, and at one that carries nothing. *)
Lemma X6_witness :
  messages (snd (fixCode Sample.codedValueHost true Sample.typoWorld))
  = [notice SevError
       (lit "Self-Healing Assistant: Cannot connect to n8n at http://localhost:5678/webhook/fix. Is n8n running?")]
  /\ messages (snd (fixCode Sample.oddHost true Sample.typoWorld))
     = [notice SevError
          (lit "Self-Healing Assistant: An error occurred while fixing code.")].
Proof.
  split.
  - destruct (X6_non_error_rejection_is_mapped_or_gets_the_generic_text
                Sample.codedValueHost true Sample.typoWorld Sample.typoEditor
                (lit "cosnole.log(1)") (Sample.range 0 0 0 14) Sample.endpoint
                (Some (lit "ECONNREFUSED")) None)
      as (Hrefused & _); [accepted | accepted |].
    exact (Hrefused eq_refl).
  - destruct (X6_non_error_rejection_is_mapped_or_gets_the_generic_text
                Sample.oddHost true Sample.typoWorld Sample.typoEditor
                (lit "cosnole.log(1)") (Sample.range 0 0 0 14) Sample.endpoint
                None None)
      as (_ & _ & _ & Hother & _); [accepted | accepted |].
    destruct Hother as (_ & Hmsg & _); [discriminate .. |]. exact Hmsg.
Defined.

(** X9 with the cursor at the origin, and at a document of no-break
    spaces and a line separator. *)
Lemma X9_witness :
  messages (snd (fixCode Sample.cursorHost true Sample.typoWorld))
  = [notice SevError noSelectionMessage]
  /\ messages (snd (fixCode Sample.typoHost false Sample.blankWorld))
     = [notice SevError (lit "Selected code is empty.")].
Proof.
  split.
  - destruct (X9_missing_selection_and_blank_input_messages
                Sample.cursorHost Sample.typoWorld
                (Sample.editorOn (lit "javascript") (Sample.range 0 0 0 0))
                eq_refl (or_introl eq_refl)) as [Hnone _].
    now rewrite (Hnone eq_refl).
  - destruct (X9_missing_selection_and_blank_input_messages
                Sample.typoHost Sample.blankWorld Sample.typoEditor
                eq_refl (or_introl eq_refl)) as [_ Hblank].
    rewrite (Hblank false); [reflexivity | discriminate | reflexivity].
Defined.

(** X11 at an editor that turns the edit down: the edit was given, the
    success notice is shown, and the text is the one the user left. *)
Lemma X11_witness :
  editApplied Sample.refusingHost = false
  /\ (exists explained,
        In (successNotice explained)
           (shownSince Sample.typoWorld
              (snd (fixCode Sample.refusingHost true Sample.typoWorld))))
  /\ (document (snd (fixCode Sample.refusingHost true Sample.typoWorld))
      = document Sample.typoWorld
      \/ document (snd (fixCode Sample.refusingHost true Sample.typoWorld))
         = textAtResponse Sample.refusingHost Sample.typoWorld).
Proof.
  destruct (X11_success_is_announced_exactly_when_an_edit_is_requested
              Sample.refusingHost true Sample.typoWorld)
    as (Hiff & _ & Hdoc).
  split; [reflexivity|]. split.
  - apply (proj1 Hiff). discriminate.
  - exact (Hdoc eq_refl).
Defined.

(** X13 at the scenario of the specification. *)
Lemma X13_witness :
  diffs (snd (fixCode Sample.typoHost true Sample.typoWorld)) = []
  /\ Forall (fun m => msg_modal m = false /\ msg_items m = [])
            (messages (snd (fixCode Sample.typoHost true Sample.typoWorld))).
Proof.
  exact (X13_preview_off_never_prompts_nor_opens_a_diff
           Sample.typoHost true Sample.typoWorld eq_refl).
Defined.


(** X15 at a whole-file fix of the scenario's document. *)
Lemma X15_witness :
  requests (snd (fixCode Sample.typoHost false Sample.typoWorld))
  = [mkRequest (lit "http://localhost:5678/webhook/fix")
       (mkPayload (lit "cosnole.log(1)") (lit "javascript") (lit "/work/app.js")
                  [lit "Line 1: Cannot find name (Error)"]) ms30000].
Proof.
  apply (X15_whole_file_fix_posts_the_whole_document
           Sample.typoHost Sample.typoWorld Sample.typoEditor Sample.endpoint);
    [reflexivity | now left | reflexivity | reflexivity | discriminate].
Defined.

(** X16 at the scenario with Apply Changes picked: the edit was applied,
    and the answer is the one the statement names. *)
Lemma X16_witness :
  edits (snd (fixCode (Sample.previewHost (Some (lit "Apply Changes")) None) true
                      Sample.typoWorld))
  = [(Sample.range 0 0 0 14, lit "console.log(1)")]
  /\ (firstAnswer (Sample.previewHost (Some (lit "Apply Changes")) None)
      = Some (lit "Apply Changes")
      \/ (firstAnswer (Sample.previewHost (Some (lit "Apply Changes")) None)
          = Some (lit "Show Diff")
          /\ secondAnswer (Sample.previewHost (Some (lit "Apply Changes")) None)
             = Some (lit "Apply"))).
Proof.
  split; [reflexivity|].
  apply (X16_preview_on_edits_only_after_an_apply_answer
           (Sample.previewHost (Some (lit "Apply Changes")) None) true
           Sample.typoWorld); [reflexivity|].
  intros H. vm_compute in H. discriminate H.
Defined.

(** X17 without an editor and without an endpoint. *)
Lemma X17_witness :
  console (snd (fixCode Sample.noEditorHost false Sample.typoWorld)) = []
  /\ console (snd (fixCode Sample.unconfiguredHost true Sample.typoWorld))
     = [LogError (ThrownError (newError configErrorMessage))].
Proof.
  split.
  - destruct (X17_only_thrown_values_reach_the_console_with_logging_off
                Sample.noEditorHost false Sample.typoWorld eq_refl)
      as [Hdown _].
    apply Hdown. intros editor c rg (He & _). discriminate He.
  - destruct (X17_only_thrown_values_reach_the_console_with_logging_off
                Sample.unconfiguredHost true Sample.typoWorld eq_refl)
      as [_ Hrun].
    exact (Hrun Sample.typoEditor (lit "cosnole.log(1)") (Sample.range 0 0 0 14)
                ltac:(accepted)).
Defined.
